(** * caddy-gitea: request resolution and content resolution

    A shallow embedding of the two Go packages of the plugin:

    - [gitea.go] (package [gitea], the Caddy middleware): the pure
      function [inferOwnerRepoPathAndRef] that maps a request to
      (owner, repo, filePath, ref);
    - [pkg/gitea/gitea.go] (the client): [allowsPages], [hasRepoBranch],
      [validRefs], [readConfig], [getRawFileOrLFS], [handleMD] and the
      orchestrator [Open].

    Go strings and byte slices are byte sequences; both are modelled by
    Stdlib's [string] (a list of 8-bit characters).  The remote Gitea
    server is a record of oracles, the process-wide viper configuration
    is threaded explicitly as state, and Go's [(value, error)] results
    are a sum type. *)

From Stdlib Require Import ZArith Lia String Ascii DecimalString DecimalZ.
From stdpp Require Import gmap strings list fin_maps.

Local Open Scope string_scope.

(** ** Go's [strings] package, as far as the plugin uses it *)

Module strings.

(** [strings.HasPrefix]. *)
Fixpoint HasPrefix (s prefix : string) : bool :=
  match prefix, s with
  | EmptyString, _ => true
  | String p prefix', String c s' => Ascii.eqb c p && HasPrefix s' prefix'
  | String _ _, EmptyString => false
  end.

(** [strings.HasSuffix]: [len(s) >= len(suffix) &&
    s[len(s)-len(suffix):] == suffix]. *)
Definition HasSuffix (s suffix : string) : bool :=
  (String.length suffix <=? String.length s)%nat
  && String.eqb
       (substring (String.length s - String.length suffix)
                  (String.length suffix) s)
       suffix.

(** [strings.TrimSuffix]: [s] without the trailing [suffix], or [s]
    itself when it does not end in [suffix]. *)
Definition TrimSuffix (s suffix : string) : string :=
  if HasSuffix s suffix
  then substring 0 (String.length s - String.length suffix) s
  else s.

(** Membership of a byte in a cutset. *)
Fixpoint inCutset (c : ascii) (cutset : string) : bool :=
  match cutset with
  | EmptyString => false
  | String d cutset' => Ascii.eqb c d || inCutset c cutset'
  end.

(** [strings.TrimRight]: all trailing bytes that occur in [cutset]
    are removed. *)
Fixpoint TrimRight (s cutset : string) : string :=
  match s with
  | EmptyString => EmptyString
  | String c s' =>
      match TrimRight s' cutset with
      | EmptyString => if inCutset c cutset then EmptyString
                       else String c EmptyString
      | t => String c t
      end
  end.

(** The scan behind [strings.Split] for a non-empty separator:
    [skip] bytes of a separator just matched are still to be passed
    over, [cur] is the piece read so far. *)
Fixpoint splitFrom (sep : string) (skip : nat) (cur s : string)
  : list string :=
  match s with
  | EmptyString => [cur]
  | String c s' =>
      match skip with
      | S k => splitFrom sep k cur s'
      | O =>
          if HasPrefix s sep
          then cur :: splitFrom sep (String.length sep - 1) EmptyString s'
          else splitFrom sep 0 (cur +:+ String c EmptyString) s'
      end
  end.

(** [strings.Split(s, sep)] for a non-empty [sep] (the plugin splits
    on ["."] and on ["/"] only): the pieces of [s] between the
    occurrences of [sep], one more than there are occurrences. *)
Definition Split (s sep : string) : list string :=
  splitFrom sep 0 EmptyString s.

(** [strings.Join]. *)
Definition Join (elems : list string) (sep : string) : string :=
  String.concat sep elems.

End strings.

(** ** The middleware: [gitea.go] *)

(** [url.Values], a map from a key to the values given for it. *)
Abbreviation Values := (gmap string (list string)).

(** [Values.Get]: the first value of the key, or the empty string. *)
Definition Values_Get (v : Values) (key : string) : string :=
  match v !! key with
  | Some (x :: _) => x
  | _ => ""
  end.

(** The parts of [*http.Request] the resolver reads: [r.Host],
    [r.URL.Path] and [r.URL.Query()]. *)
Record Request := {
  Host : string;
  Path : string;
  Query : Values
}.

(** The middleware's configuration, as far as the resolver reads it. *)
Record Middleware := {
  Domain : string
}.

(** The four named results of [inferOwnerRepoPathAndRef]. *)
Record Target := {
  owner : string;
  repo : string;
  filePath : string;
  ref : string
}.

(** [parts[1:]]; the caller has checked [len(parts) > 1]. *)
Definition from1 (parts : list string) : list string := drop 1 parts.

(** [inferOwnerRepoPathAndRef].  An index out of range panics in Go:
    [h[0]] is written as a lookup, and the function returns [None]
    where Go would panic ([inferOwnerRepoPathAndRef_total] shows it
    never does). *)
Definition inferOwnerRepoPathAndRef (m : Middleware) (r : Request)
  : option Target :=
  let host := strings.TrimRight (strings.TrimSuffix (Host r) (Domain m)) "." in
  let h := strings.Split host "." in
  h0 ← h !! 0%nat;
  let owner0 := h0 in
  let ref0 := Values_Get (Query r) "ref" in
  if String.eqb (Domain m) "" then
    let parts := strings.Split (Path r) "/" in
    if (length parts =? 1)%nat then
      p0 ← parts !! 0%nat;
      Some {| owner := owner0; repo := ""; filePath := p0; ref := ref0 |}
    else if (1 <? length parts)%nat then
      p0 ← parts !! 0%nat;
      Some {| owner := owner0; repo := p0;
              filePath := strings.Join (from1 parts) "/"; ref := ref0 |}
    else
      Some {| owner := owner0; repo := ""; filePath := ""; ref := ref0 |}
  else
    if (length h =? 1)%nat then
      Some {| owner := h0; repo := ""; filePath := Path r; ref := ref0 |}
    else if (length h =? 2)%nat then
      h1 ← h !! 1%nat;
      Some {| owner := h1; repo := h0; filePath := Path r; ref := ref0 |}
    else if (length h =? 3)%nat then
      h1 ← h !! 1%nat;
      h2 ← h !! 2%nat;
      Some {| owner := h2; repo := h1; filePath := Path r; ref := h0 |}
    else
      Some {| owner := owner0; repo := ""; filePath := Path r; ref := ref0 |}.

(** The labels of the host: what [inferOwnerRepoPathAndRef] holds in
    [h]. *)
Definition hostLabels (m : Middleware) (r : Request) : list string :=
  strings.Split
    (strings.TrimRight (strings.TrimSuffix (Host r) (Domain m)) ".") ".".

(** The segments of the URL path: what the legacy branch holds in
    [parts]. *)
Definition pathSegments (r : Request) : list string :=
  strings.Split (Path r) "/".

(** The [ref] query parameter. *)
Definition queryRef (r : Request) : string := Values_Get (Query r) "ref".

(** ** The client: [pkg/gitea/gitea.go] *)

(** [[]byte]; the conversions [string(b)] and [[]byte(s)] copy the
    bytes and are the identity here. *)
Abbreviation bytes := string (only parsing).

(** The line feed of the document shell written by [handleMD]. *)
Definition LF : string := String "010"%char EmptyString.

(** *** Errors and results *)

(** Go's [error] values of the package: the sentinel [fs.ErrNotExist],
    an error made by [fmt.Errorf], and an error handed back by a
    library (the Gitea SDK, [net/http], [io], viper, the front-matter
    and Markdown code). *)
Inductive error :=
| ErrNotExist
| Errorf (msg : string)
| LibError (msg : string).

(** A Go result pair [(v, err)]: [Ok v] stands for [(v, nil)]. *)
Inductive result (A : Type) :=
| Ok (a : A)
| Err (e : error).
Arguments Ok {A} a.
Arguments Err {A} e.

(** [%d] of [fmt]: the decimal digits of an integer. *)
Definition itoa (z : Z) : string := NilZero.string_of_int (Z.to_int z).

(** *** Data *)

(** [type AllowedBranches int] with its three [iota] constants. *)
Inductive AllowedBranches :=
| AllowedBranchesNone
| AllowedBranchesLimited
| AllowedBranchesAll.

(** The integer behind a constant. *)
Definition iota (a : AllowedBranches) : Z :=
  match a with
  | AllowedBranchesNone => 0
  | AllowedBranchesLimited => 1
  | AllowedBranchesAll => 2
  end.

(** [a == b] and [a < b] on [AllowedBranches]. *)
Definition AllowedBranches_eqb (a b : AllowedBranches) : bool :=
  (iota a =? iota b)%Z.
Definition AllowedBranches_ltb (a b : AllowedBranches) : bool :=
  (iota a <? iota b)%Z.

(** [gclient.Branch], of which [Name] is read. *)
Record Branch := {
  Name : string
}.

(** [http.Response]: the status code, and what [io.ReadAll(resp.Body)]
    returns. *)
Record Response := {
  StatusCode : Z;
  Body : result bytes
}.

Definition StatusOK : Z := 200.
Definition StatusNotFound : Z := 404.

(** The Gitea server as the client reaches it: the two SDK calls, and
    the authenticated GET of
    [<serverURL>/api/v1/repos/<owner>/<repo>/media/<filepath>?ref=<ref>].
    [Do owner repo filepath ref] is [Err] when [url.JoinPath],
    [http.NewRequest] or [http.DefaultClient.Do] returns an error
    (all three are handed to the caller unchanged).  The server is
    taken to answer the same way throughout one request. *)
Record Server := {
  ListRepoTopics : string -> string -> result (list string);
  GetRepoBranch : string -> string -> string -> result Branch;
  Do : string -> string -> string -> string -> result Response
}.

(** [type Client struct]. *)
Record Client := {
  serverURL : string;
  token : string;
  giteapages : string;
  giteapagesAllowAll : string;
  gc : Server
}.

(** The process-wide viper configuration: what [viper.GetStringSlice]
    gives for each key. *)
Abbreviation Viper := (gmap string (list string)).

(** [viper.GetStringSlice]: a key that is not set yields no strings. *)
Definition GetStringSlice (v : Viper) (key : string) : list string :=
  default [] (v !! key).

(** A value of Go's [interface{}] in the front matter. *)
Inductive any :=
| AString (s : string)
| AInt (z : Z)
| ABool (b : bool)
| ANil.

(** [meta["title"].(string)] with the comma-ok form: the string, or the
    empty string when the key is absent or holds another type. *)
Definition title_of (meta : gmap string any) : string :=
  match meta !! "title" with
  | Some (AString s) => s
  | _ => ""
  end.

(** [type openFile struct], of which [Open] sets two fields. *)
Record openFile := {
  content : bytes;
  name : string
}.

(** *** Code that reads and writes the viper configuration *)

(** A computation that may change the viper configuration and returns a
    Go result. *)
Definition M (A : Type) : Type := Viper -> result A * Viper.

#[global] Instance M_ret : MRet M := fun A a v => (Ok a, v).
#[global] Instance M_bind : MBind M := fun A B f m v =>
  match m v with
  | (Ok a, v') => f a v'
  | (Err e, v') => (Err e, v')
  end.

(** A result that leaves the configuration alone. *)
Definition liftR {A} (r : result A) : M A := fun v => (r, v).

(** *** The functions *)

(** [NewClient], up to the SDK client it builds: the two reserved names
    default to ["gitea-pages"] and ["gitea-pages-allowall"]. *)
Definition NewClient (srv : Server)
    (serverURL token giteapages giteapagesAllowAll : string) : Client :=
  let giteapages :=
    if String.eqb giteapages "" then "gitea-pages" else giteapages in
  let giteapagesAllowAll :=
    if String.eqb giteapagesAllowAll "" then "gitea-pages-allowall"
    else giteapagesAllowAll in
  {| serverURL := serverURL; token := token; gc := srv;
     giteapages := giteapages; giteapagesAllowAll := giteapagesAllowAll |}.

(** [getRawFileOrLFS]. *)
Definition getRawFileOrLFS (c : Client) (owner repo filepath ref : string)
  : result bytes :=
  match Do (gc c) owner repo filepath ref with
  | Err e => Err e
  | Ok resp =>
      if (StatusCode resp =? StatusNotFound)%Z then Err ErrNotExist
      else if (StatusCode resp =? StatusOK)%Z then
        match Body resp with
        | Err e => Err e
        | Ok res => Ok res
        end
      else
        Err (Errorf ("unexpected status code '" +:+ itoa (StatusCode resp)
                     +:+ "'"))
  end.

(** [repoTopics]. *)
Definition repoTopics (c : Client) (owner repo : string)
  : result (list string) :=
  ListRepoTopics (gc c) owner repo.

(** [hasRepoBranch]. *)
Definition hasRepoBranch (c : Client) (owner repo branch : string) : bool :=
  match GetRepoBranch (gc c) owner repo branch with
  | Err _ => false
  | Ok b => String.eqb (Name b) branch
  end.

(** [for _, topic := range topics { if topic == t { return ... } }]:
    whether the loop returns. *)
Fixpoint rangeTopics (topics : list string) (t : string) : bool :=
  match topics with
  | [] => false
  | topic :: topics' =>
      if String.eqb topic t then true else rangeTopics topics' t
  end.

(** [allowsPages]. *)
Definition allowsPages (c : Client) (owner repo : string) : AllowedBranches :=
  match repoTopics c owner repo with
  | Err _ => AllowedBranchesNone
  | Ok topics =>
      if rangeTopics topics (giteapagesAllowAll c) then AllowedBranchesAll
      else if rangeTopics topics (giteapages c) then AllowedBranchesLimited
      else AllowedBranchesNone
  end.

(** The loop of [validRefs] over [validrefs]. *)
Fixpoint rangeRefs (validrefs : list string) (ref : string) : bool :=
  match validrefs with
  | [] => false
  | r :: validrefs' =>
      if String.eqb r ref then true
      else if String.eqb r "*" then true
      else rangeRefs validrefs' ref
  end.

(** [validRefs], reading the viper configuration [v]. *)
Definition validRefs (v : Viper) (ref : string)
    (allowedBranches : AllowedBranches) : bool :=
  if AllowedBranches_eqb allowedBranches AllowedBranchesAll then true
  else rangeRefs (GetStringSlice v "allowedrefs") ref.

Section Libraries.

(** [viper.ReadConfig] after [viper.SetConfigType("toml")]: the
    configuration it leaves behind and the error it returns, if any. *)
Variable ReadConfig : Viper -> bytes -> Viper * option error.

(** [extractFrontMatter] and [markdown], functions of the package in
    a file other than [gitea.go]. *)
Variable extractFrontMatter : string -> result (gmap string any * string).
Variable markdown : bytes -> result bytes.

(** [readConfig]. *)
Definition readConfig (c : Client) (owner repo : string) : M unit :=
  fun v =>
    match getRawFileOrLFS c owner repo (giteapages c +:+ ".toml")
            (giteapages c) with
    | Err e => (Err e, v)
    | Ok cfg =>
        match ReadConfig v cfg with
        | (v', Some e) => (Err e, v')
        | (v', None) => (Ok tt, v')
        end
    end.

(** [handleMD]. *)
Definition handleMD (res : bytes) : result bytes :=
  match extractFrontMatter res with
  | Err e => Err e
  | Ok (meta, resbody) =>
      match markdown resbody with
      | Err e => Err e
      | Ok resmd =>
          let title := title_of meta in
          let res := ("<!DOCTYPE html>" +:+ LF +:+ "<html>" +:+ LF
                      +:+ "<body>" +:+ LF +:+ "<h1>") +:+ title in
          let res := res +:+ "</h1>" in
          let res := res +:+ resmd in
          let res := res +:+ "</body></html>" in
          Ok res
      end
  end.

(** [Open], lines 58-65: the defaults of [repo] and [*filepath]. *)
Definition defaultRepo (c : Client) (repo : string) : string :=
  if String.eqb repo "" then giteapages c else repo.
Definition defaultFilepath (filepath : string) : string :=
  if String.eqb filepath "" || String.eqb filepath "/" then "index.html"
  else filepath.

(** [Open], lines 69-93: the check that the repository allows access,
    given [allowedBranches]; the result is [ref] as the block leaves
    it. *)
Definition checkAccess (c : Client) (owner repo ref : string)
    (compatibilityMode : bool) (allowedBranches : AllowedBranches)
  : result string :=
  if AllowedBranches_eqb allowedBranches AllowedBranchesNone then
    if String.eqb repo (giteapages c)
       && negb (hasRepoBranch c owner repo (giteapages c))
    then Err ErrNotExist
    else if compatibilityMode then
      let maybeRepo := giteapages c in
      let ref := if String.eqb ref "" then giteapages c else ref in
      let allowedBranches2 := allowsPages c owner maybeRepo in
      if AllowedBranches_eqb allowedBranches2 AllowedBranchesNone
         || negb (hasRepoBranch c owner repo (giteapages c))
      then Err ErrNotExist
      else Ok ref
    else Ok ref
  else Ok ref.

(** [Open], lines 95-105: the result is [hasConfig]. *)
Definition loadConfig (c : Client) (owner repo : string)
    (allowedBranches : AllowedBranches) : M bool :=
  fun v =>
    match readConfig c owner repo v with
    | (Ok _, v') => (Ok true, v')
    | (Err err, v') =>
        if negb (String.eqb repo (giteapages c))
           && AllowedBranches_ltb allowedBranches AllowedBranchesAll
        then (Err err, v')
        else (Ok false, v')
    end.

(** [Open], lines 107-113: the result is [ref] as the block leaves
    it. *)
Definition resolveRef (c : Client) (repo ref : string)
    (allowedBranches : AllowedBranches) (hasConfig : bool) : M string :=
  fun v =>
    if negb hasConfig
       && (String.eqb repo (giteapages c) || String.eqb ref (giteapages c))
    then (Ok (giteapages c), v)
    else if negb (validRefs v ref allowedBranches)
    then (Err ErrNotExist, v)
    else (Ok ref, v).

(** [Open], lines 115-130. *)
Definition fetchFile (c : Client) (owner repo filepath ref : string)
  : result openFile :=
  match getRawFileOrLFS c owner repo filepath ref with
  | Err e => Err e
  | Ok res =>
      if strings.HasSuffix filepath ".md" then
        match handleMD res with
        | Err e => Err e
        | Ok res => Ok {| content := res; name := filepath |}
        end
      else Ok {| content := res; name := filepath |}
  end.

(** [Open].  [filepath] is a pointer in Go and [Open] writes the
    default through it; the value written is the [name] of the file
    returned. *)
Definition Open (c : Client) (owner repo filepath ref : string)
    (compatibilityMode : bool) : M openFile :=
  let repo := defaultRepo c repo in
  let filepath := defaultFilepath filepath in
  let allowedBranches := allowsPages c owner repo in
  ref ← liftR (checkAccess c owner repo ref compatibilityMode
                 allowedBranches);
  hasConfig ← loadConfig c owner repo allowedBranches;
  ref ← resolveRef c repo ref allowedBranches hasConfig;
  liftR (fetchFile c owner repo filepath ref).

End Libraries.

(** ** The handler: [ServeHTTP] in [gitea.go] *)

(** What [ServeHTTP] comes to: the file that [io.Copy] writes to the
    response, or the error made by [caddyhttp.Error] with its status. *)
Inductive Handled :=
| Served (f : openFile)
| HandlerError (status : Z) (err : error).

Section Handler.

Variable ReadConfig : Viper -> bytes -> Viper * option error.
Variable extractFrontMatter : string -> result (gmap string any * string).
Variable markdown : bytes -> result bytes.

(** [ServeHTTP], with the client of the middleware ([m.Client]) as an
    argument of its own.  The result is [None] where the resolver
    panics. *)
Definition ServeHTTP (m : Middleware) (client : Client) (r : Request)
  : Viper -> option (Handled * Viper) :=
  fun v =>
    t ← inferOwnerRepoPathAndRef m r;
    match Open ReadConfig extractFrontMatter markdown client
            (owner t) (repo t) (filePath t) (ref t)
            (String.eqb (Domain m) "") v with
    | (Err err, v') => Some (HandlerError StatusNotFound err, v')
    | (Ok f, v') => Some (Served f, v')
    end.

End Handler.

(** ** Sample servers and libraries

    Concrete servers and stand-ins for the library functions, on which
    the functions above are run. *)

(** A client of a server that answers every raw-file request with the
    given response, and has no topics and no branches. *)
Definition answering (resp : Response) : Client :=
  NewClient
    {| ListRepoTopics := fun _ _ => Err (LibError "no such repository");
       GetRepoBranch := fun _ _ _ => Err (LibError "no such branch");
       Do := fun _ _ _ _ => Ok resp |}
    "https://gitea.example.com" "secret" "" "".

(** The double quote. *)
Definition DQ : string := String "034"%char EmptyString.

(** The configuration document that allows every ref. *)
Definition anyRefToml : bytes := "allowedrefs = [" +:+ DQ +:+ "*" +:+ DQ +:+ "]".

(** A TOML reader that knows [anyRefToml] and rejects everything else,
    leaving an empty configuration. *)
Definition sampleReadConfig (v : Viper) (cfg : bytes) : Viper * option error :=
  if String.eqb cfg anyRefToml then ({[ "allowedrefs" := ["*"] ]}, None)
  else (∅, Some (LibError "toml: cannot read the document")).

(** A Markdown document with front matter. *)
Definition sampleDocument : bytes :=
  "---" +:+ LF +:+ "title: Hi" +:+ LF +:+ "---" +:+ LF +:+ "# Hello".

(** A front-matter splitter that knows [sampleDocument] and takes every
    other input to have no front matter. *)
Definition sampleFrontMatter (s : string)
  : result (gmap string any * string) :=
  if String.eqb s sampleDocument then Ok ({[ "title" := AString "Hi" ]}, "# Hello")
  else Ok (∅, s).

(** A Markdown renderer that knows one heading and wraps every other
    body in a paragraph. *)
Definition sampleMarkdown (body : bytes) : result bytes :=
  if String.eqb body "# Hello" then Ok ("<h1>Hello</h1>" +:+ LF)
  else Ok ("<p>" +:+ body +:+ "</p>" +:+ LF).

Definition notFound : Response :=
  {| StatusCode := 404; Body := Ok "Not Found" |}.

(** A server with the pages repository [gitea-pages], which carries the
    pages topic, has the pages branch and no configuration document.
    With [docsExists] there is also a repository [docs] without topics
    that has a [gitea-pages] branch holding a page and the
    configuration document [anyRefToml]; without it no such repository
    exists. *)
Definition pagesServer (docsExists : bool) : Server :=
  {| ListRepoTopics := fun _ repo =>
       if String.eqb repo "gitea-pages" then Ok ["gitea-pages"]
       else if docsExists && String.eqb repo "docs" then Ok []
       else Err (LibError "404 Not Found");
     GetRepoBranch := fun _ repo branch =>
       if (String.eqb repo "gitea-pages"
           || docsExists && String.eqb repo "docs")
          && String.eqb branch "gitea-pages"
       then Ok {| Name := branch |}
       else Err (LibError "404 Not Found");
     Do := fun _ repo filepath ref =>
       if String.eqb repo "gitea-pages" then
         if String.eqb filepath "index.html" && String.eqb ref "gitea-pages"
         then Ok {| StatusCode := 200; Body := Ok "pages home" |}
         else Ok notFound
       else if docsExists && String.eqb repo "docs"
               && String.eqb ref "gitea-pages" then
         if String.eqb filepath "gitea-pages.toml"
         then Ok {| StatusCode := 200; Body := Ok anyRefToml |}
         else if String.eqb filepath "index.html"
         then Ok {| StatusCode := 200; Body := Ok "docs home" |}
         else Ok notFound
       else Ok notFound |}.

Definition pagesClient (docsExists : bool) : Client :=
  NewClient (pagesServer docsExists) "https://gitea.example.com" "secret"
    "" "".

(** A server whose repository [site] carries the pages topic and which
    answers every raw-file request with status 500. *)
Definition brokenServer : Server :=
  {| ListRepoTopics := fun _ repo =>
       if String.eqb repo "site" then Ok ["gitea-pages"]
       else Err (LibError "404 Not Found");
     GetRepoBranch := fun _ _ _ => Err (LibError "404 Not Found");
     Do := fun _ _ _ _ =>
       Ok {| StatusCode := 500; Body := Ok "Internal Server Error" |} |}.

Definition brokenClient : Client :=
  NewClient brokenServer "https://gitea.example.com" "secret" "" "".

(** A server whose repository [blog] carries the allow-all topic, has
    no configuration document and holds a page on the branch [dev]. *)
Definition blogServer : Server :=
  {| ListRepoTopics := fun _ repo =>
       if String.eqb repo "blog" then Ok ["gitea-pages-allowall"]
       else Err (LibError "404 Not Found");
     GetRepoBranch := fun _ _ _ => Err (LibError "404 Not Found");
     Do := fun _ repo filepath ref =>
       if String.eqb repo "blog" && String.eqb filepath "index.html"
          && String.eqb ref "dev"
       then Ok {| StatusCode := 200; Body := Ok "blog on dev" |}
       else Ok notFound |}.

Definition blogClient : Client :=
  NewClient blogServer "https://gitea.example.com" "secret" "" "".

(** ** Properties of the request resolver *)


Lemma splitFrom_cons sep skip cur s :
  exists p ps, strings.splitFrom sep skip cur s = p :: ps.
Proof.
  revert skip cur.
  induction s as [|c s IH]; intros skip cur; cbn [strings.splitFrom].
  - eauto.
  - destruct skip as [|k]; [|apply IH].
    destruct (strings.HasPrefix (String c s) sep); [eauto|apply IH].
Qed.

Lemma Split_cons s sep : exists p ps, strings.Split s sep = p :: ps.
Proof. apply splitFrom_cons. Qed.

Ltac infer_unfold :=
  unfold inferOwnerRepoPathAndRef, hostLabels, pathSegments, queryRef in *;
  cbv zeta.

(** The resolver never indexes out of range: it returns a target for
    every request. *)
Lemma inferOwnerRepoPathAndRef_total m r :
  is_Some (inferOwnerRepoPathAndRef m r).
Proof.
  infer_unfold.
  destruct (Split_cons
              (strings.TrimRight (strings.TrimSuffix (Host r) (Domain m)) ".")
              ".") as (h0 & hs & ->).
  simpl. destruct (String.eqb (Domain m) "").
  - destruct (Split_cons (Path r) "/") as (p0 & ps & ->).
    destruct ps; simpl; eauto.
  - destruct hs as [|h1 [|h2 [|h3 hs]]]; simpl; eauto.
Qed.

Example split_host :
  strings.Split
    (strings.TrimRight
       (strings.TrimSuffix "c.b.a.example.com" "example.com") ".") "."
  = ["c"; "b"; "a"].
Proof. reflexivity. Qed.

Example split_path : strings.Split "/a/b/c" "/" = [""; "a"; "b"; "c"].
Proof. reflexivity. Qed.

Example split_trailing : strings.Split "a." "." = ["a"; ""].
Proof. reflexivity. Qed.

Example split_empty : strings.Split "" "." = [""].
Proof. reflexivity. Qed.

(** The three cases of the repository's test
    [TestMiddleware_inferOwnerRepoPathAndRef]. *)
Example test_gitea_pages_repo :
  inferOwnerRepoPathAndRef {| Domain := "example.com" |}
    {| Host := "someorg.example.com"; Path := "/a/b/c"; Query := ∅ |}
  = Some {| owner := "someorg"; repo := ""; filePath := "/a/b/c"; ref := "" |}.
Proof. vm_compute. reflexivity. Qed.

Example test_other_repo :
  inferOwnerRepoPathAndRef {| Domain := "example.com" |}
    {| Host := "somerepo.someorg.example.com"; Path := "/a/b/c"; Query := ∅ |}
  = Some {| owner := "someorg"; repo := "somerepo"; filePath := "/a/b/c";
            ref := "" |}.
Proof. vm_compute. reflexivity. Qed.

Example test_other_branch :
  inferOwnerRepoPathAndRef {| Domain := "example.com" |}
    {| Host := "somebranch.somerepo.someorg.example.com"; Path := "/a/b/c";
       Query := ∅ |}
  = Some {| owner := "someorg"; repo := "somerepo"; filePath := "/a/b/c";
            ref := "somebranch" |}.
Proof. vm_compute. reflexivity. Qed.

(** Read as the pieces of [strings.Split(r.URL.Path, "/")], the
    segments are resolved as the legacy branch is written: the first
    piece is the repository and the other pieces, joined by slashes,
    are the file path; a path of one piece gives the empty repository
    and that piece as the file path; the ref is the [ref] query
    parameter in both cases. *)
Lemma legacy_mode_split_pieces (m : Middleware) (r : Request)
    (o : string) (hs : list string) :
  Domain m = "" ->
  hostLabels m r = o :: hs ->
  (forall p, pathSegments r = [p] ->
     inferOwnerRepoPathAndRef m r
     = Some {| owner := o; repo := ""; filePath := p; ref := queryRef r |})
  /\ (forall p q rest, pathSegments r = p :: q :: rest ->
        inferOwnerRepoPathAndRef m r
        = Some {| owner := o; repo := p;
                  filePath := strings.Join (q :: rest) "/";
                  ref := queryRef r |}).
Proof.
  intros Hd Hh. infer_unfold. rewrite Hh, Hd. simpl.
  split.
  - intros p ->. reflexivity.
  - intros p q rest ->. reflexivity.
Qed.

Example legacy_no_leading_slash :
  inferOwnerRepoPathAndRef {| Domain := "" |}
    {| Host := "someorg.example.com"; Path := "somerepo/docs/index.html";
       Query := {[ "ref" := ["dev"] ]} |}
  = Some {| owner := "someorg"; repo := "somerepo";
            filePath := "docs/index.html"; ref := "dev" |}.
Proof. vm_compute. reflexivity. Qed.

Lemma append_nil (t : string) : "" +:+ t = t.
Proof. reflexivity. Qed.

Lemma append_cons (c : ascii) (s t : string) :
  String c s +:+ t = String c (s +:+ t).
Proof. reflexivity. Qed.

Lemma append_nil_r (s : string) : s +:+ "" = s.
Proof.
  induction s as [|c s IH]; [reflexivity|].
  rewrite append_cons. now f_equal.
Qed.

Lemma append_assoc (s t u : string) : (s +:+ t) +:+ u = s +:+ (t +:+ u).
Proof.
  induction s as [|c s IH]; [reflexivity|].
  rewrite !append_cons. now f_equal.
Qed.

Lemma HasPrefix_nil (s : string) : strings.HasPrefix s "" = true.
Proof. now destruct s. Qed.

Lemma concat_cons_cons (sep x y : string) (l : list string) :
  String.concat sep (x :: y :: l)
  = x +:+ sep +:+ String.concat sep (y :: l).
Proof. reflexivity. Qed.

(** Joining the pieces of a split at the slashes gives the string
    back. *)
Lemma Join_splitFrom_slash (cur s : string) :
  strings.Join (strings.splitFrom "/" 0 cur s) "/" = cur +:+ s.
Proof.
  unfold strings.Join. revert cur.
  induction s as [|c s IH]; intros cur; cbn [strings.splitFrom].
  - simpl. now rewrite append_nil_r.
  - cbn [strings.HasPrefix String.length Nat.sub].
    rewrite HasPrefix_nil, andb_true_r.
    destruct (Ascii.eqb_spec c "/") as [->|Hc].
    + destruct (splitFrom_cons "/" 0 "" s) as (p & ps & Hs).
      rewrite Hs, concat_cons_cons, <- Hs, IH. reflexivity.
    + rewrite IH, append_assoc. reflexivity.
Qed.

(** What the legacy branch does with a URL path that starts with a
    slash: the first piece of the split is the empty string before that
    slash, so the repository is empty and the file path is the whole
    path without its leading slash, however many segments it has. *)
Lemma legacy_mode_leading_slash (m : Middleware) (r : Request)
    (o p : string) (hs : list string) :
  Domain m = "" ->
  hostLabels m r = o :: hs ->
  Path r = "/" +:+ p ->
  inferOwnerRepoPathAndRef m r
  = Some {| owner := o; repo := ""; filePath := p; ref := queryRef r |}.
Proof.
  intros Hd Hh Hp.
  assert (Hseg : pathSegments r = "" :: strings.splitFrom "/" 0 "" p).
  { unfold pathSegments, strings.Split.
    rewrite Hp, append_cons, append_nil.
    cbn [strings.splitFrom strings.HasPrefix String.length Nat.sub].
    now rewrite HasPrefix_nil, Ascii.eqb_refl. }
  pose proof (Join_splitFrom_slash "" p) as Hjoin.
  destruct (splitFrom_cons "/" 0 "" p) as (q & qs & Hs).
  rewrite Hs in Hseg, Hjoin.
  rewrite (proj2 (legacy_mode_split_pieces m r o hs Hd Hh) _ _ _ Hseg), Hjoin.
  reflexivity.
Qed.

(** C2, on the code. In legacy mode the request for
    [/somerepo/index.html] resolves to the empty repository and the
    file path [somerepo/index.html]: the first segment [somerepo] is
    not taken as the repository and the remaining segment is not the
    file path.  The same holds with more segments; a path of the one
    segment [index.html] resolves to the empty repository and that
    segment. *)
Theorem legacy_mode_repo_from_path :
  inferOwnerRepoPathAndRef {| Domain := "" |}
    {| Host := "someorg"; Path := "/somerepo/index.html"; Query := ∅ |}
  = Some {| owner := "someorg"; repo := "";
            filePath := "somerepo/index.html"; ref := "" |}
  /\ inferOwnerRepoPathAndRef {| Domain := "" |}
       {| Host := "someorg"; Path := "/somerepo/docs/index.html";
          Query := {[ "ref" := ["dev"] ]} |}
     = Some {| owner := "someorg"; repo := "";
               filePath := "somerepo/docs/index.html"; ref := "dev" |}
  /\ inferOwnerRepoPathAndRef {| Domain := "" |}
       {| Host := "someorg"; Path := "/index.html"; Query := ∅ |}
     = Some {| owner := "someorg"; repo := "";
               filePath := "index.html"; ref := "" |}.
Proof. repeat split; vm_compute; reflexivity. Qed.

Lemma Domain_set_eqb (m : Middleware) :
  Domain m <> "" -> String.eqb (Domain m) "" = false.
Proof. intros H. destruct (String.eqb_spec (Domain m) ""); congruence. Qed.

(** The one-label clause of C3 as the claim words it (an empty ref)
    fails: the ref of the query parameter is kept. *)
Lemma subdomain_one_label_empty_ref_counterexample :
  ~ (forall (m : Middleware) (r : Request) (o : string),
       Domain m <> "" ->
       hostLabels m r = [o] ->
       inferOwnerRepoPathAndRef m r
       = Some {| owner := o; repo := ""; filePath := Path r; ref := "" |}).
Proof.
  intros H.
  specialize (H {| Domain := "example.com" |}
                {| Host := "a.example.com"; Path := "/x";
                   Query := {[ "ref" := ["dev"] ]} |}
                "a").
  assert (Hd : Domain {| Domain := "example.com" |} <> "") by discriminate.
  specialize (H Hd eq_refl).
  vm_compute in H. discriminate H.
Qed.

(** C3, amended. In subdomain mode (a domain is configured) the host,
    without the domain suffix and trailing dots, is split at the dots:
    one label is the owner, with the empty repository and the ref of
    the [ref] query parameter; two labels are repository and owner,
    with the ref of the query parameter; three labels are ref,
    repository and owner; the file path is the URL path in all three
    cases.  Host [c.b.a.example.com] with domain [example.com] and path
    [/x] gives owner [a], repository [b], ref [c] and file path [/x]
    whatever the query. *)
Theorem subdomain_mode_resolution (m : Middleware) (r : Request) :
  Domain m <> "" ->
  (forall o, hostLabels m r = [o] ->
     inferOwnerRepoPathAndRef m r
     = Some {| owner := o; repo := ""; filePath := Path r;
               ref := queryRef r |})
  /\ (forall rp o, hostLabels m r = [rp; o] ->
        inferOwnerRepoPathAndRef m r
        = Some {| owner := o; repo := rp; filePath := Path r;
                  ref := queryRef r |})
  /\ (forall rf rp o, hostLabels m r = [rf; rp; o] ->
        inferOwnerRepoPathAndRef m r
        = Some {| owner := o; repo := rp; filePath := Path r; ref := rf |})
  /\ (forall q,
        inferOwnerRepoPathAndRef {| Domain := "example.com" |}
          {| Host := "c.b.a.example.com"; Path := "/x"; Query := q |}
        = Some {| owner := "a"; repo := "b"; filePath := "/x"; ref := "c" |}).
Proof.
  intros Hd. apply Domain_set_eqb in Hd.
  split; [|split; [|split]].
  - intros o Hh. infer_unfold. rewrite Hh, Hd. reflexivity.
  - intros rp o Hh. infer_unfold. rewrite Hh, Hd. reflexivity.
  - intros rf rp o Hh. infer_unfold. rewrite Hh, Hd. reflexivity.
  - intros q. reflexivity.
Qed.

Lemma subdomain_mode_resolution_witness :
  inferOwnerRepoPathAndRef {| Domain := "example.com" |}
    {| Host := "b.a.example.com"; Path := "/x";
       Query := {[ "ref" := ["dev"] ]} |}
  = Some {| owner := "a"; repo := "b"; filePath := "/x"; ref := "dev" |}.
Proof.
  refine (proj1 (proj2 (subdomain_mode_resolution
                          {| Domain := "example.com" |}
                          {| Host := "b.a.example.com"; Path := "/x";
                             Query := {[ "ref" := ["dev"] ]} |} _))
                "b" "a" _).
  - discriminate.
  - vm_compute. reflexivity.
Defined.

(** C10. In subdomain mode a host of more than three labels gives the
    left-most label as owner, the empty repository, the ref of the
    [ref] query parameter and the URL path as file path: no other label
    is used, and the resolver returns a target. *)
Theorem subdomain_more_than_three_labels (m : Middleware) (r : Request)
    (l0 l1 l2 l3 : string) (ls : list string) :
  Domain m <> "" ->
  hostLabels m r = l0 :: l1 :: l2 :: l3 :: ls ->
  inferOwnerRepoPathAndRef m r
  = Some {| owner := l0; repo := ""; filePath := Path r;
            ref := queryRef r |}.
Proof.
  intros Hd Hh. apply Domain_set_eqb in Hd.
  infer_unfold. rewrite Hh, Hd. reflexivity.
Qed.

Lemma subdomain_more_than_three_labels_witness :
  inferOwnerRepoPathAndRef {| Domain := "example.com" |}
    {| Host := "d.c.b.a.example.com"; Path := "/x";
       Query := {[ "ref" := ["dev"] ]} |}
  = Some {| owner := "d"; repo := ""; filePath := "/x"; ref := "dev" |}.
Proof.
  refine (subdomain_more_than_three_labels
            {| Domain := "example.com" |}
            {| Host := "d.c.b.a.example.com"; Path := "/x";
               Query := {[ "ref" := ["dev"] ]} |}
            "d" "c" "b" "a" [] _ _).
  - discriminate.
  - vm_compute. reflexivity.
Defined.

(** ** Properties of the client *)

(** *** Strings *)

Lemma append_char_inj (s t : string) (c : ascii) :
  s +:+ String c "" = t +:+ String c "" -> s = t.
Proof.
  revert t. induction s as [|a s IH]; intros [|b t];
    rewrite ?append_cons, ?append_nil; intros H.
  - reflexivity.
  - injection H as _ H. destruct t; rewrite ?append_cons, ?append_nil in H;
      discriminate H.
  - injection H as _ H. destruct s; rewrite ?append_cons, ?append_nil in H;
      discriminate H.
  - injection H as -> H. f_equal. now apply IH.
Qed.

(** [%d] prints different integers differently. *)
Lemma itoa_inj (a b : Z) : itoa a = itoa b -> a = b.
Proof.
  assert (Hnil : forall z, Z.to_int z <> Decimal.Pos Decimal.Nil
                           /\ Z.to_int z <> Decimal.Neg Decimal.Nil).
  { intros z. split; intros H; pose proof (f_equal Z.of_int H) as E;
      rewrite DecimalZ.of_to in E; subst z; vm_compute in H;
      discriminate H. }
  unfold itoa. intros H.
  apply (f_equal NilZero.int_of_string) in H.
  rewrite !NilZero.isi in H by apply Hnil.
  injection H as H. now apply DecimalZ.to_int_inj.
Qed.

Example itoa_500 : itoa 500 = "500".
Proof. reflexivity. Qed.

Example itoa_0 : itoa 0 = "0".
Proof. reflexivity. Qed.

(** *** Topics *)

Lemma rangeTopics_elem_of (topics : list string) (t : string) :
  rangeTopics topics t = true <-> t ∈ topics.
Proof.
  induction topics as [|topic topics IH]; simpl.
  - split; [discriminate|]. intros H. inversion H.
  - rewrite elem_of_cons. destruct (String.eqb_spec topic t) as [->|Hne].
    + tauto.
    + rewrite IH. split; [tauto|]. intros [->|H]; [congruence|exact H].
Qed.

Lemma rangeTopics_not_elem_of (topics : list string) (t : string) :
  rangeTopics topics t = false <-> t ∉ topics.
Proof.
  rewrite <- rangeTopics_elem_of. destruct (rangeTopics topics t); split;
    congruence.
Qed.

(** C4. [allowsPages] is [AllowedBranchesAll] when the allow-all topic
    is among the topics fetched, whatever else is; it is
    [AllowedBranchesLimited] when the allow-all topic is absent and the
    pages topic is present; it is [AllowedBranchesNone] when both are
    absent, and also when fetching the topics fails. *)
Theorem allowsPages_levels (c : Client) (owner repo : string) :
  (forall topics, repoTopics c owner repo = Ok topics ->
     giteapagesAllowAll c ∈ topics ->
     allowsPages c owner repo = AllowedBranchesAll)
  /\ (forall topics, repoTopics c owner repo = Ok topics ->
        giteapagesAllowAll c ∉ topics ->
        giteapages c ∈ topics ->
        allowsPages c owner repo = AllowedBranchesLimited)
  /\ (forall topics, repoTopics c owner repo = Ok topics ->
        giteapagesAllowAll c ∉ topics ->
        giteapages c ∉ topics ->
        allowsPages c owner repo = AllowedBranchesNone)
  /\ (forall e, repoTopics c owner repo = Err e ->
        allowsPages c owner repo = AllowedBranchesNone).
Proof.
  unfold allowsPages.
  split; [|split; [|split]].
  - intros topics -> Hall. apply rangeTopics_elem_of in Hall.
    now rewrite Hall.
  - intros topics -> Hall Hpages.
    apply rangeTopics_not_elem_of in Hall. apply rangeTopics_elem_of in Hpages.
    now rewrite Hall, Hpages.
  - intros topics -> Hall Hpages.
    apply rangeTopics_not_elem_of in Hall, Hpages.
    now rewrite Hall, Hpages.
  - intros e ->. reflexivity.
Qed.

(** *** Refs *)

Lemma rangeRefs_elem_of (validrefs : list string) (ref : string) :
  rangeRefs validrefs ref = true <-> ref ∈ validrefs \/ "*" ∈ validrefs.
Proof.
  induction validrefs as [|r validrefs IH]; simpl.
  - split; [discriminate|]. intros [H|H]; inversion H.
  - rewrite !elem_of_cons.
    destruct (String.eqb_spec r ref) as [->|Hne]; [tauto|].
    destruct (String.eqb_spec r "*") as [->|Hstar]; [tauto|].
    rewrite IH. split; [tauto|].
    intros [[E|H]|[E|H]]; try (symmetry in E; contradiction); tauto.
Qed.

(** C5. [validRefs] is true for every ref when the level is
    [AllowedBranchesAll], whatever the configuration holds; at any
    other level it is true exactly when the [allowedrefs] list of the
    configuration holds the ref itself or the wildcard ["*"], so it is
    false when the configuration has no [allowedrefs] at all. *)
Theorem validRefs_policy (v : Viper) (ref : string)
    (allowedBranches : AllowedBranches) :
  (allowedBranches = AllowedBranchesAll ->
     validRefs v ref allowedBranches = true)
  /\ (allowedBranches <> AllowedBranchesAll ->
        (validRefs v ref allowedBranches = true
         <-> ref ∈ GetStringSlice v "allowedrefs"
             \/ "*" ∈ GetStringSlice v "allowedrefs"))
  /\ (allowedBranches <> AllowedBranchesAll ->
        v !! "allowedrefs" = None ->
        validRefs v ref allowedBranches = false).
Proof.
  unfold validRefs. split; [|split].
  - intros ->. reflexivity.
  - intros Hne. destruct allowedBranches; try congruence;
      apply rangeRefs_elem_of.
  - intros Hne Hnone. unfold GetStringSlice. rewrite Hnone.
    destruct allowedBranches; try congruence; reflexivity.
Qed.

Lemma validRefs_policy_witness :
  validRefs {[ "allowedrefs" := ["main"] ]} "main" AllowedBranchesLimited
  = true
  /\ validRefs {[ "allowedrefs" := ["main"] ]} "dev" AllowedBranchesLimited
     = false
  /\ validRefs ∅ "main" AllowedBranchesLimited = false.
Proof.
  split; [|split].
  - apply (proj1 (proj2 (validRefs_policy {[ "allowedrefs" := ["main"] ]}
                           "main" AllowedBranchesLimited))).
    + discriminate.
    + left. vm_compute. constructor.
  - vm_compute. reflexivity.
  - apply (proj2 (proj2 (validRefs_policy ∅ "main" AllowedBranchesLimited))).
    + discriminate.
    + reflexivity.
Defined.

(** *** Fetching a file *)

(** The message of the error for an unexpected status code names the
    code: different codes give different errors. *)
Lemma unexpected_status_inj (a b : Z) :
  Errorf ("unexpected status code '" +:+ itoa a +:+ "'")
  = Errorf ("unexpected status code '" +:+ itoa b +:+ "'") ->
  a = b.
Proof.
  intros H. injection H as H.
  apply (inj (String.app _)) in H.
  apply append_char_inj in H. now apply itoa_inj.
Qed.

(** C8. When the server answers the request for a raw file, a 404 is
    the error [fs.ErrNotExist], a 200 gives the bytes read from the
    body, and any other status is an error that is not [fs.ErrNotExist]
    and whose message holds the status code, so that two different
    codes give two different errors. *)
Theorem getRawFileOrLFS_status (c : Client) (owner repo filepath ref : string)
    (resp : Response) :
  Do (gc c) owner repo filepath ref = Ok resp ->
  (StatusCode resp = StatusNotFound ->
     getRawFileOrLFS c owner repo filepath ref = Err ErrNotExist)
  /\ (StatusCode resp = StatusOK ->
        forall res, Body resp = Ok res ->
          getRawFileOrLFS c owner repo filepath ref = Ok res)
  /\ (StatusCode resp <> StatusNotFound -> StatusCode resp <> StatusOK ->
        getRawFileOrLFS c owner repo filepath ref
        = Err (Errorf ("unexpected status code '" +:+ itoa (StatusCode resp)
                       +:+ "'"))
        /\ getRawFileOrLFS c owner repo filepath ref <> Err ErrNotExist
        /\ forall code, code <> StatusCode resp ->
             getRawFileOrLFS c owner repo filepath ref
             <> Err (Errorf ("unexpected status code '" +:+ itoa code
                             +:+ "'"))).
Proof.
  intros Hdo. unfold getRawFileOrLFS. rewrite Hdo.
  split; [|split].
  - intros ->. reflexivity.
  - intros -> res ->. reflexivity.
  - intros H404 H200.
    apply Z.eqb_neq in H404, H200. rewrite H404, H200.
    split; [reflexivity|]. split; [discriminate|].
    intros code Hcode E. apply Hcode.
    apply unexpected_status_inj. congruence.
Qed.


Lemma getRawFileOrLFS_status_witness :
  getRawFileOrLFS
    (answering {| StatusCode := 404; Body := Ok "Not found" |})
    "o" "r" "index.html" "main"
  = Err ErrNotExist
  /\ getRawFileOrLFS
       (answering {| StatusCode := 200; Body := Ok "<p>hello</p>" |})
       "o" "r" "index.html" "main"
     = Ok "<p>hello</p>"
  /\ getRawFileOrLFS
       (answering {| StatusCode := 500; Body := Ok "oops" |})
       "o" "r" "index.html" "main"
     = Err (Errorf "unexpected status code '500'").
Proof.
  split; [|split].
  - apply (proj1 (getRawFileOrLFS_status
                    (answering {| StatusCode := 404; Body := Ok "Not found" |})
                    "o" "r" "index.html" "main" _ eq_refl)).
    reflexivity.
  - apply (proj1 (proj2 (getRawFileOrLFS_status
                    (answering {| StatusCode := 200;
                                  Body := Ok "<p>hello</p>" |})
                    "o" "r" "index.html" "main" _ eq_refl))).
    + reflexivity.
    + reflexivity.
  - refine (proj1 (proj2 (proj2 (getRawFileOrLFS_status
                    (answering {| StatusCode := 500; Body := Ok "oops" |})
                    "o" "r" "index.html" "main" _ eq_refl)) _ _)).
    + discriminate.
    + discriminate.
Defined.

(** *** Markdown *)

Section Markdown.

Variable extractFrontMatter : string -> result (gmap string any * string).
Variable markdown : bytes -> result bytes.



End Markdown.

(** *** The orchestrator *)

Section Orchestrator.

Variable ReadConfig : Viper -> bytes -> Viper * option error.
Variable extractFrontMatter : string -> result (gmap string any * string).
Variable markdown : bytes -> result bytes.

Variable c : Client.
Variables owner repo filepath ref : string.
Variable compatibilityMode : bool.

(** The repository and the file path after the defaults, and the level
    [Open] computes for that repository. *)
Local Abbreviation repo' := (defaultRepo c repo).
Local Abbreviation filepath' := (defaultFilepath filepath).
Local Abbreviation level := (allowsPages c owner (defaultRepo c repo)).
Local Abbreviation Open' :=
  (Open ReadConfig extractFrontMatter markdown c owner repo filepath ref
        compatibilityMode).
Local Abbreviation fetchFile' :=
  (fetchFile extractFrontMatter markdown c owner (defaultRepo c repo)
             (defaultFilepath filepath)).

Ltac open_unfold :=
  unfold Open, mbind, M_bind, liftR; cbv zeta.

(** [Open] up to the loading of the configuration. *)
Lemma Open_after_access (ref1 : string) (v : Viper) :
  checkAccess c owner repo' ref compatibilityMode level = Ok ref1 ->
  Open' v
  = match loadConfig ReadConfig c owner repo' level v with
    | (Ok hasConfig, v1) =>
        match resolveRef c repo' ref1 level hasConfig v1 with
        | (Ok ref2, v2) => (fetchFile' ref2, v2)
        | (Err e, v2) => (Err e, v2)
        end
    | (Err e, v1) => (Err e, v1)
    end.
Proof. intros Hacc. open_unfold. rewrite Hacc. reflexivity. Qed.

(** C7. When the access check has passed and loading the configuration
    fails with an error: if the repository is not the default pages
    repository and the level is below [AllowedBranchesAll], [Open]
    fails with that error; in every other case [hasConfig] is false and
    [Open] goes on to the ref resolution with it. *)
Theorem Open_config_load_failure (ref1 : string) (v v1 : Viper) (err : error) :
  checkAccess c owner repo' ref compatibilityMode level = Ok ref1 ->
  readConfig ReadConfig c owner repo' v = (Err err, v1) ->
  (repo' <> giteapages c /\ (iota level < iota AllowedBranchesAll)%Z ->
     Open' v = (Err err, v1))
  /\ (~ (repo' <> giteapages c /\ (iota level < iota AllowedBranchesAll)%Z) ->
        loadConfig ReadConfig c owner repo' level v = (Ok false, v1)
        /\ Open' v
           = match resolveRef c repo' ref1 level false v1 with
             | (Ok ref2, v2) => (fetchFile' ref2, v2)
             | (Err e, v2) => (Err e, v2)
             end).
Proof.
  intros Hacc Hread.
  rewrite (Open_after_access ref1 v Hacc).
  unfold loadConfig. rewrite Hread.
  split.
  - intros [Hrepo Hlevel].
    apply String.eqb_neq in Hrepo. apply Z.ltb_lt in Hlevel.
    unfold AllowedBranches_ltb. now rewrite Hrepo, Hlevel.
  - intros Hnot.
    assert (Hcond : negb (String.eqb repo' (giteapages c))
                    && AllowedBranches_ltb level AllowedBranchesAll = false).
    { apply not_true_is_false. intros Hcond.
      apply andb_prop in Hcond as [Hrepo Hlevel].
      apply Hnot. split.
      - apply String.eqb_neq. now apply negb_true_iff in Hrepo.
      - now apply Z.ltb_lt. }
    rewrite Hcond. split; reflexivity.
Qed.

(** C6. When the access check has passed and the configuration step
    has set [hasConfig]: if there is no configuration and the
    repository is the default pages repository or the ref is the pages
    name, the file is fetched at the pages name; in every other case
    [validRefs] decides, [Open] fails with [fs.ErrNotExist] when it
    rejects the ref and fetches the file at the ref when it accepts
    it. *)
Theorem Open_ref_resolution (ref1 : string) (hasConfig : bool)
    (v v1 : Viper) :
  checkAccess c owner repo' ref compatibilityMode level = Ok ref1 ->
  loadConfig ReadConfig c owner repo' level v = (Ok hasConfig, v1) ->
  (hasConfig = false /\ (repo' = giteapages c \/ ref1 = giteapages c) ->
     Open' v = (fetchFile' (giteapages c), v1))
  /\ (~ (hasConfig = false /\ (repo' = giteapages c \/ ref1 = giteapages c)) ->
        (validRefs v1 ref1 level = false -> Open' v = (Err ErrNotExist, v1))
        /\ (validRefs v1 ref1 level = true ->
              Open' v = (fetchFile' ref1, v1))).
Proof.
  intros Hacc Hload.
  rewrite (Open_after_access ref1 v Hacc), Hload.
  unfold resolveRef.
  split.
  - intros [-> Hpages].
    assert (Hcond : String.eqb repo' (giteapages c)
                    || String.eqb ref1 (giteapages c) = true).
    { apply orb_true_iff.
      destruct Hpages as [H|H]; [left|right]; now apply String.eqb_eq. }
    simpl. now rewrite Hcond.
  - intros Hnot.
    assert (Hcond : negb hasConfig
                    && (String.eqb repo' (giteapages c)
                        || String.eqb ref1 (giteapages c)) = false).
    { apply not_true_is_false. intros Hcond.
      apply andb_prop in Hcond as [Hcfg Hpages].
      apply Hnot. split.
      - now apply negb_true_iff in Hcfg.
      - apply orb_true_iff in Hpages.
        destruct Hpages as [H|H]; [left|right]; now apply String.eqb_eq. }
    rewrite Hcond. split; intros ->; reflexivity.
Qed.

End Orchestrator.

(** *** Runs on the sample servers *)

Lemma allowsPages_levels_witness :
  allowsPages (pagesClient true) "o" "gitea-pages" = AllowedBranchesLimited
  /\ allowsPages (pagesClient true) "o" "docs" = AllowedBranchesNone
  /\ allowsPages (pagesClient false) "o" "docs" = AllowedBranchesNone.
Proof.
  split; [|split].
  - apply (proj1 (proj2 (allowsPages_levels (pagesClient true) "o"
                           "gitea-pages")) ["gitea-pages"]).
    + reflexivity.
    + vm_compute. intros H. inversion H as [|? ? ? H']; inversion H'.
    + vm_compute. constructor.
  - apply (proj1 (proj2 (proj2 (allowsPages_levels (pagesClient true) "o"
                                  "docs"))) []).
    + reflexivity.
    + intros H. inversion H.
    + intros H. inversion H.
  - apply (proj2 (proj2 (proj2 (allowsPages_levels (pagesClient false) "o"
                                  "docs"))) (LibError "404 Not Found")).
    reflexivity.
Defined.


Lemma Open_config_load_failure_witness :
  Open sampleReadConfig sampleFrontMatter sampleMarkdown brokenClient
    "o" "site" "index.html" "main" false ∅
  = (Err (Errorf "unexpected status code '500'"), ∅).
Proof.
  refine (proj1 (Open_config_load_failure
                   sampleReadConfig sampleFrontMatter sampleMarkdown
                   brokenClient "o" "site" "index.html" "main" false
                   "main" ∅ ∅ (Errorf "unexpected status code '500'") _ _) _).
  - reflexivity.
  - reflexivity.
  - split; [discriminate|vm_compute; reflexivity].
Defined.

Lemma Open_ref_resolution_witness :
  Open sampleReadConfig sampleFrontMatter sampleMarkdown (pagesClient false)
    "o" "" "/" "main" false ∅
  = (Ok {| content := "pages home"; name := "index.html" |}, ∅).
Proof.
  refine (proj1 (Open_ref_resolution
                   sampleReadConfig sampleFrontMatter sampleMarkdown
                   (pagesClient false) "o" "" "/" "main" false
                   "main" false ∅ ∅ _ _) _).
  - reflexivity.
  - reflexivity.
  - split; [reflexivity|left; reflexivity].
Defined.

(** In compatibility mode a repository without topics passes the access
    check only if that repository itself has the pages branch. *)
Lemma checkAccess_compat_none (c : Client) (owner repo ref ref1 : string) :
  checkAccess c owner repo ref true AllowedBranchesNone = Ok ref1 ->
  hasRepoBranch c owner repo (giteapages c) = true
  /\ allowsPages c owner (giteapages c) <> AllowedBranchesNone.
Proof.
  unfold checkAccess. simpl.
  destruct (hasRepoBranch c owner repo (giteapages c)).
  - rewrite andb_false_r, orb_false_r.
    destruct (allowsPages c owner (giteapages c)); simpl;
      [discriminate|split; [reflexivity|discriminate]..].
  - rewrite orb_true_r. destruct (String.eqb repo (giteapages c)); discriminate.
Qed.

(** C1, on the code. In compatibility mode, for the repository [docs]
    at level [AllowedBranchesNone], with a pages repository that
    carries the pages topic and has the pages branch: when [docs] does
    not exist [Open] fails with [fs.ErrNotExist], although the file is
    there in the pages repository at the pages ref; when [docs] exists
    and has a [gitea-pages] branch, [Open] reads the configuration and
    the file of [docs], not of the pages repository. *)
Theorem Open_compat_fallback_keeps_repo :
  (allowsPages (pagesClient false) "o" "docs" = AllowedBranchesNone
   /\ allowsPages (pagesClient false) "o" "gitea-pages"
      = AllowedBranchesLimited
   /\ hasRepoBranch (pagesClient false) "o" "gitea-pages" "gitea-pages" = true
   /\ fetchFile sampleFrontMatter sampleMarkdown (pagesClient false)
        "o" "gitea-pages" "index.html" "gitea-pages"
      = Ok {| content := "pages home"; name := "index.html" |}
   /\ Open sampleReadConfig sampleFrontMatter sampleMarkdown
        (pagesClient false) "o" "docs" "index.html" "" true ∅
      = (Err ErrNotExist, ∅))
  /\ (allowsPages (pagesClient true) "o" "docs" = AllowedBranchesNone
      /\ allowsPages (pagesClient true) "o" "gitea-pages"
         = AllowedBranchesLimited
      /\ hasRepoBranch (pagesClient true) "o" "gitea-pages" "gitea-pages"
         = true
      /\ Open sampleReadConfig sampleFrontMatter sampleMarkdown
           (pagesClient true) "o" "docs" "index.html" "" true ∅
         = (Ok {| content := "docs home"; name := "index.html" |},
            {[ "allowedrefs" := ["*"] ]})).
Proof. repeat split; vm_compute; reflexivity. Qed.

(** ** Further properties of the request resolver *)

(** *** Strings *)

Lemma length_append (s t : string) :
  String.length (s +:+ t) = (String.length s + String.length t)%nat.
Proof.
  induction s as [|c s IH]; [reflexivity|].
  rewrite append_cons. simpl. now rewrite IH.
Qed.

Lemma substring_0_append (s t : string) :
  substring 0 (String.length s) (s +:+ t) = s.
Proof.
  induction s as [|c s IH].
  - rewrite append_nil. now destruct t.
  - rewrite append_cons. simpl. now rewrite IH.
Qed.

Lemma substring_0_length (s : string) : substring 0 (String.length s) s = s.
Proof. induction s as [|c s IH]; [reflexivity|]. simpl. now rewrite IH. Qed.

Lemma substring_skip_append (s t : string) :
  substring (String.length s) (String.length t) (s +:+ t) = t.
Proof.
  induction s as [|c s IH].
  - rewrite append_nil. apply substring_0_length.
  - rewrite append_cons. simpl. exact IH.
Qed.

(** [strings.TrimSuffix] takes a suffix away. *)
Lemma TrimSuffix_append (s suffix : string) :
  strings.TrimSuffix (s +:+ suffix) suffix = s.
Proof.
  unfold strings.TrimSuffix, strings.HasSuffix.
  rewrite length_append.
  replace (String.length s + String.length suffix - String.length suffix)%nat
    with (String.length s) by lia.
  rewrite substring_skip_append, String.eqb_refl, substring_0_append.
  destruct (Nat.leb_spec (String.length suffix)
              (String.length s + String.length suffix)); [reflexivity|lia].
Qed.

(** A string without dots, followed by a dot, is trimmed back to the
    string. *)
Lemma TrimRight_label_dot (o : string) :
  strings.inCutset "." o = false ->
  strings.TrimRight (o +:+ ".") "." = o.
Proof.
  induction o as [|c o IH]; [reflexivity|].
  cbn [strings.inCutset]. intros H. apply orb_false_elim in H as [Hc Ho].
  rewrite append_cons. cbn [strings.TrimRight]. rewrite (IH Ho).
  destruct o; [|reflexivity].
  cbn [strings.inCutset]. rewrite Ascii.eqb_sym, Hc. reflexivity.
Qed.

(** Trimming on the right leaves what comes before a part that is not
    trimmed away. *)
Lemma TrimRight_append (pre t cutset : string) :
  strings.TrimRight t cutset <> "" ->
  strings.TrimRight (pre +:+ t) cutset = pre +:+ strings.TrimRight t cutset.
Proof.
  intros Ht. induction pre as [|c pre IH]; [reflexivity|].
  rewrite !append_cons. cbn [strings.TrimRight]. rewrite IH.
  destruct (pre +:+ strings.TrimRight t cutset) eqn:E; [|reflexivity].
  destruct pre; [rewrite append_nil in E; contradiction|].
  rewrite append_cons in E. discriminate E.
Qed.

(** Splitting at the dots: a piece without dots is a label. *)
Lemma splitFrom_label (cur a : string) :
  strings.inCutset "." a = false ->
  strings.splitFrom "." 0 cur a = [cur +:+ a].
Proof.
  revert cur. induction a as [|c a IH]; intros cur H.
  - simpl. now rewrite append_nil_r.
  - cbn [strings.inCutset] in H. apply orb_false_elim in H as [Hc Ha].
    cbn [strings.splitFrom strings.HasPrefix].
    rewrite Ascii.eqb_sym, Hc. cbn [andb].
    rewrite (IH _ Ha), append_assoc. reflexivity.
Qed.

Lemma splitFrom_label_dot (cur a rest : string) :
  strings.inCutset "." a = false ->
  strings.splitFrom "." 0 cur (a +:+ "." +:+ rest)
  = (cur +:+ a) :: strings.splitFrom "." 0 "" rest.
Proof.
  revert cur. induction a as [|c a IH]; intros cur H.
  - rewrite append_nil, append_cons, append_nil, append_nil_r.
    cbn [strings.splitFrom strings.HasPrefix String.length Nat.sub].
    now rewrite HasPrefix_nil.
  - cbn [strings.inCutset] in H. apply orb_false_elim in H as [Hc Ha].
    rewrite append_cons.
    cbn [strings.splitFrom strings.HasPrefix].
    rewrite Ascii.eqb_sym, Hc. cbn [andb].
    rewrite (IH _ Ha), append_assoc. reflexivity.
Qed.

(** *** Hosts and paths *)

Lemma hostLabels_one (m : Middleware) (r : Request) (o : string) :
  strings.inCutset "." o = false ->
  Host r = o +:+ "." +:+ Domain m ->
  hostLabels m r = [o].
Proof.
  intros Ho Hhost. unfold hostLabels.
  rewrite Hhost, <- append_assoc, TrimSuffix_append, (TrimRight_label_dot o Ho).
  unfold strings.Split. now rewrite (splitFrom_label "" o Ho).
Qed.

Lemma hostLabels_more (m : Middleware) (r : Request) (pre o : string) :
  strings.inCutset "." o = false ->
  o <> "" ->
  Host r = pre +:+ o +:+ "." +:+ Domain m ->
  strings.TrimRight (strings.TrimSuffix (Host r) (Domain m)) "." = pre +:+ o.
Proof.
  intros Ho Hne Hhost.
  rewrite Hhost, <- (append_assoc o), <- (append_assoc pre), TrimSuffix_append.
  rewrite TrimRight_append; rewrite (TrimRight_label_dot o Ho);
    [reflexivity|exact Hne].
Qed.

(** The table in the comment of [inferOwnerRepoPathAndRef], on host
    names: with a domain configured, [<owner>.domain] gives the owner
    with the empty repository, [<repo>.<owner>.domain] gives repository
    and owner, both with the ref of the query parameter, and
    [<branch>.<repo>.<owner>.domain] gives ref, repository and owner,
    for names without dots and an owner that is not empty; the file
    path is the URL path. *)
Theorem subdomain_host_forms (m : Middleware) (r : Request)
    (b rp o : string) :
  Domain m <> "" ->
  strings.inCutset "." b = false ->
  strings.inCutset "." rp = false ->
  strings.inCutset "." o = false ->
  o <> "" ->
  (Host r = o +:+ "." +:+ Domain m ->
     inferOwnerRepoPathAndRef m r
     = Some {| owner := o; repo := ""; filePath := Path r;
               ref := queryRef r |})
  /\ (Host r = rp +:+ "." +:+ o +:+ "." +:+ Domain m ->
        inferOwnerRepoPathAndRef m r
        = Some {| owner := o; repo := rp; filePath := Path r;
                  ref := queryRef r |})
  /\ (Host r = b +:+ "." +:+ rp +:+ "." +:+ o +:+ "." +:+ Domain m ->
        inferOwnerRepoPathAndRef m r
        = Some {| owner := o; repo := rp; filePath := Path r; ref := b |}).
Proof.
  intros Hd Hb Hrp Ho Hne. apply Domain_set_eqb in Hd.
  split; [|split]; intros Hhost.
  - pose proof (hostLabels_one m r o Ho Hhost) as Hh.
    infer_unfold. rewrite Hh, Hd. reflexivity.
  - assert (Hh : hostLabels m r = [rp; o]).
    { unfold hostLabels.
      rewrite (hostLabels_more m r (rp +:+ ".") o Ho Hne)
        by (now rewrite append_assoc).
      unfold strings.Split.
      rewrite append_assoc, (splitFrom_label_dot "" rp o Hrp).
      now rewrite (splitFrom_label "" o Ho). }
    infer_unfold. rewrite Hh, Hd. reflexivity.
  - assert (Hh : hostLabels m r = [b; rp; o]).
    { unfold hostLabels.
      rewrite (hostLabels_more m r (b +:+ "." +:+ rp +:+ ".") o Ho Hne)
        by (now rewrite !append_assoc).
      unfold strings.Split.
      rewrite !append_assoc, (splitFrom_label_dot "" b _ Hb).
      rewrite (splitFrom_label_dot "" rp o Hrp).
      now rewrite (splitFrom_label "" o Ho). }
    infer_unfold. rewrite Hh, Hd. reflexivity.
Qed.

Lemma subdomain_host_forms_witness :
  inferOwnerRepoPathAndRef {| Domain := "pages.example.org" |}
    {| Host := "main.blog.alice.pages.example.org"; Path := "/posts/1.html";
       Query := {[ "ref" := ["dev"] ]} |}
  = Some {| owner := "alice"; repo := "blog"; filePath := "/posts/1.html";
            ref := "main" |}.
Proof.
  refine (proj2 (proj2 (subdomain_host_forms
                          {| Domain := "pages.example.org" |}
                          {| Host := "main.blog.alice.pages.example.org";
                             Path := "/posts/1.html";
                             Query := {[ "ref" := ["dev"] ]} |}
                          "main" "blog" "alice" _ _ _ _ _)) _).
  - discriminate.
  - reflexivity.
  - reflexivity.
  - reflexivity.
  - discriminate.
  - reflexivity.
Defined.

(** A request to the configured domain itself, or to the domain after
    dots only, has the empty owner and the empty repository. *)
Theorem subdomain_bare_domain (m : Middleware) (r : Request) :
  Domain m <> "" ->
  (Host r = Domain m \/ Host r = "." +:+ Domain m) ->
  inferOwnerRepoPathAndRef m r
  = Some {| owner := ""; repo := ""; filePath := Path r; ref := queryRef r |}.
Proof.
  intros Hd Hhost. apply Domain_set_eqb in Hd.
  assert (Hh : hostLabels m r = [""]).
  { destruct Hhost as [Hhost|Hhost].
    - unfold hostLabels.
      rewrite Hhost, <- (append_nil (Domain m)) at 1.
      now rewrite TrimSuffix_append.
    - apply (hostLabels_one m r ""); [reflexivity|exact Hhost]. }
  infer_unfold. rewrite Hh, Hd. reflexivity.
Qed.

Lemma subdomain_bare_domain_witness :
  inferOwnerRepoPathAndRef {| Domain := "pages.example.org" |}
    {| Host := "pages.example.org"; Path := "/"; Query := ∅ |}
  = Some {| owner := ""; repo := ""; filePath := "/"; ref := "" |}.
Proof.
  refine (subdomain_bare_domain
            {| Domain := "pages.example.org" |}
            {| Host := "pages.example.org"; Path := "/"; Query := ∅ |} _ _).
  - discriminate.
  - left. reflexivity.
Defined.

(** In legacy mode nothing of the URL path is lost: a path without a
    slash is the file path, with the empty repository; for a path with
    a slash, the repository, a slash and the file path give the path
    back. *)
Theorem legacy_mode_path_round_trip (m : Middleware) (r : Request)
    (t : Target) :
  Domain m = "" ->
  inferOwnerRepoPathAndRef m r = Some t ->
  (length (pathSegments r) = 1%nat -> repo t = "" /\ filePath t = Path r)
  /\ ((1 < length (pathSegments r))%nat ->
        repo t +:+ "/" +:+ filePath t = Path r).
Proof.
  intros Hd Hinfer.
  destruct (Split_cons
              (strings.TrimRight (strings.TrimSuffix (Host r) (Domain m)) ".")
              ".") as (o & hs & Hh).
  pose proof (legacy_mode_split_pieces m r o hs Hd Hh) as [Hone Hmore].
  pose proof (Join_splitFrom_slash "" (Path r)) as Hjoin.
  rewrite append_nil in Hjoin. fold (strings.Split (Path r) "/") in Hjoin.
  fold (pathSegments r) in Hjoin.
  destruct (pathSegments r) as [|p [|q rest]] eqn:Hseg.
  - destruct (Split_cons (Path r) "/") as (p & ps & Hs).
    unfold pathSegments in Hseg. congruence.
  - rewrite (Hone p eq_refl) in Hinfer. injection Hinfer as <-.
    split; [|simpl; lia]. intros _. simpl. split; [reflexivity|exact Hjoin].
  - rewrite (Hmore p q rest eq_refl) in Hinfer. injection Hinfer as <-.
    split; [simpl; lia|]. intros _. simpl.
    unfold strings.Join in *. now rewrite concat_cons_cons in Hjoin.
Qed.

Lemma legacy_mode_path_round_trip_witness :
  "" +:+ "/" +:+ "somerepo/docs/index.html" = "/somerepo/docs/index.html".
Proof.
  refine (proj2 (legacy_mode_path_round_trip
                   {| Domain := "" |}
                   {| Host := "someorg"; Path := "/somerepo/docs/index.html";
                      Query := ∅ |}
                   {| owner := "someorg"; repo := "";
                      filePath := "somerepo/docs/index.html"; ref := "" |}
                   _ _) _).
  - reflexivity.
  - vm_compute. reflexivity.
  - vm_compute. lia.
Defined.

Lemma legacy_mode_leading_slash_witness :
  inferOwnerRepoPathAndRef {| Domain := "" |}
    {| Host := "someorg.example.com"; Path := "/css/site.css";
       Query := {[ "ref" := ["dev"] ]} |}
  = Some {| owner := "someorg"; repo := ""; filePath := "css/site.css";
            ref := "dev" |}.
Proof.
  refine (legacy_mode_leading_slash
            {| Domain := "" |}
            {| Host := "someorg.example.com"; Path := "/css/site.css";
               Query := {[ "ref" := ["dev"] ]} |}
            "someorg" "css/site.css" ["example"; "com"] _ _ _).
  - reflexivity.
  - vm_compute. reflexivity.
  - reflexivity.
Defined.

(** ** Further properties of the client *)

(** *** Topics and levels *)

(** The level that [allowsPages] gives for a list of topics. *)
Lemma allowsPages_of_topics (c : Client) (owner repo : string)
    (topics : list string) :
  repoTopics c owner repo = Ok topics ->
  allowsPages c owner repo
  = if rangeTopics topics (giteapagesAllowAll c) then AllowedBranchesAll
    else if rangeTopics topics (giteapages c) then AllowedBranchesLimited
    else AllowedBranchesNone.
Proof. unfold allowsPages. now intros ->. Qed.

Lemma rangeTopics_subset (t1 t2 : list string) (x : string) :
  t1 ⊆ t2 -> rangeTopics t1 x = true -> rangeTopics t2 x = true.
Proof. rewrite !rangeTopics_elem_of. intros Hsub H. now apply Hsub. Qed.

Lemma rangeTopics_same (t1 t2 : list string) (x : string) :
  (forall y, y ∈ t1 <-> y ∈ t2) -> rangeTopics t1 x = rangeTopics t2 x.
Proof.
  intros H.
  destruct (rangeTopics t1 x) eqn:E1, (rangeTopics t2 x) eqn:E2;
    try reflexivity.
  - apply rangeTopics_elem_of, H, rangeTopics_elem_of in E1. congruence.
  - apply rangeTopics_elem_of, H, rangeTopics_elem_of in E2. congruence.
Qed.

(** The level depends on which topics a repository has, not on their
    order or on repetitions. *)
Theorem allowsPages_topic_set (c : Client) (owner repo owner' repo' : string)
    (t1 t2 : list string) :
  repoTopics c owner repo = Ok t1 ->
  repoTopics c owner' repo' = Ok t2 ->
  (forall x, x ∈ t1 <-> x ∈ t2) ->
  allowsPages c owner repo = allowsPages c owner' repo'.
Proof.
  intros H1 H2 Hsame.
  rewrite (allowsPages_of_topics _ _ _ _ H1), (allowsPages_of_topics _ _ _ _ H2).
  now rewrite !(rangeTopics_same t1 t2 _ Hsame).
Qed.

(** More topics never give a lower level. *)
Theorem allowsPages_monotone (c : Client) (owner repo owner' repo' : string)
    (t1 t2 : list string) :
  repoTopics c owner repo = Ok t1 ->
  repoTopics c owner' repo' = Ok t2 ->
  t1 ⊆ t2 ->
  (iota (allowsPages c owner repo) <= iota (allowsPages c owner' repo'))%Z.
Proof.
  intros H1 H2 Hsub.
  rewrite (allowsPages_of_topics _ _ _ _ H1), (allowsPages_of_topics _ _ _ _ H2).
  pose proof (rangeTopics_subset t1 t2 (giteapagesAllowAll c) Hsub) as Hall.
  pose proof (rangeTopics_subset t1 t2 (giteapages c) Hsub) as Hpages.
  destruct (rangeTopics t1 (giteapagesAllowAll c)).
  - rewrite (Hall eq_refl). reflexivity.
  - destruct (rangeTopics t1 (giteapages c)).
    + rewrite (Hpages eq_refl).
      destruct (rangeTopics t2 (giteapagesAllowAll c)); simpl; lia.
    + destruct (rangeTopics t2 (giteapagesAllowAll c)),
        (rangeTopics t2 (giteapages c)); simpl; lia.
Qed.

(** When the two reserved topics are configured to the same name, no
    repository is limited to the pages branch: the topic allows all
    branches. *)
Theorem allowsPages_same_names (c : Client) (owner repo : string) :
  giteapagesAllowAll c = giteapages c ->
  allowsPages c owner repo <> AllowedBranchesLimited.
Proof.
  intros Hnames. unfold allowsPages. rewrite Hnames.
  destruct (repoTopics c owner repo) as [topics|e]; [|discriminate].
  destruct (rangeTopics topics (giteapages c)); discriminate.
Qed.

(** A server on which the repository [blog] has the given topics. *)
Lemma allowsPages_topic_set_witness :
  allowsPages
    (NewClient
       {| ListRepoTopics := fun _ repo =>
            if String.eqb repo "blog" then Ok ["go"; "gitea-pages"; "go"]
            else Ok ["gitea-pages"; "go"];
          GetRepoBranch := fun _ _ _ => Err (LibError "404 Not Found");
          Do := fun _ _ _ _ => Ok notFound |}
       "https://gitea.example.com" "secret" "" "") "o" "blog"
  = allowsPages
      (NewClient
         {| ListRepoTopics := fun _ repo =>
              if String.eqb repo "blog" then Ok ["go"; "gitea-pages"; "go"]
              else Ok ["gitea-pages"; "go"];
            GetRepoBranch := fun _ _ _ => Err (LibError "404 Not Found");
            Do := fun _ _ _ _ => Ok notFound |}
         "https://gitea.example.com" "secret" "" "") "o" "site".
Proof.
  apply (allowsPages_topic_set _ "o" "blog" "o" "site"
           ["go"; "gitea-pages"; "go"] ["gitea-pages"; "go"]).
  - reflexivity.
  - reflexivity.
  - intros x. rewrite !elem_of_cons. tauto.
Defined.

Lemma allowsPages_monotone_witness :
  (iota (allowsPages (pagesClient true) "o" "docs")
   <= iota (allowsPages (pagesClient true) "o" "gitea-pages"))%Z.
Proof.
  apply (allowsPages_monotone (pagesClient true) "o" "docs" "o" "gitea-pages"
           [] ["gitea-pages"]).
  - reflexivity.
  - reflexivity.
  - intros x H. inversion H.
Defined.

Lemma allowsPages_same_names_witness :
  allowsPages
    (NewClient (pagesServer true) "https://gitea.example.com" "secret"
       "gitea-pages" "gitea-pages") "o" "gitea-pages"
  <> AllowedBranchesLimited.
Proof.
  apply allowsPages_same_names. reflexivity.
Defined.

(** [NewClient] leaves neither reserved name empty: an empty pages name
    becomes [gitea-pages], an empty allow-all name becomes
    [gitea-pages-allowall], and a name that is given is kept, so that
    the repository [Open] works on is never the empty name. *)
Theorem NewClient_names (srv : Server)
    (serverURL token giteapages0 giteapagesAllowAll0 repo : string) :
  giteapages (NewClient srv serverURL token giteapages0 giteapagesAllowAll0)
  <> ""
  /\ giteapagesAllowAll
       (NewClient srv serverURL token giteapages0 giteapagesAllowAll0)
     <> ""
  /\ (giteapages0 <> "" ->
        giteapages
          (NewClient srv serverURL token giteapages0 giteapagesAllowAll0)
        = giteapages0)
  /\ (giteapagesAllowAll0 <> "" ->
        giteapagesAllowAll
          (NewClient srv serverURL token giteapages0 giteapagesAllowAll0)
        = giteapagesAllowAll0)
  /\ defaultRepo
       (NewClient srv serverURL token giteapages0 giteapagesAllowAll0) repo
     <> ""
  /\ giteapages (NewClient srv serverURL token "" giteapagesAllowAll0)
     = "gitea-pages"
  /\ giteapagesAllowAll (NewClient srv serverURL token giteapages0 "")
     = "gitea-pages-allowall".
Proof.
  unfold NewClient, defaultRepo. simpl.
  destruct (String.eqb_spec giteapages0 "") as [->|Hp],
    (String.eqb_spec giteapagesAllowAll0 "") as [->|Ha],
    (String.eqb_spec repo "") as [->|Hr];
    repeat split; try discriminate; try assumption; try reflexivity;
    try (intros H; contradiction).
Qed.

Example NewClient_default_names (srv : Server) :
  giteapages (NewClient srv "https://gitea.example.com" "secret" "" "")
  = "gitea-pages"
  /\ giteapagesAllowAll
       (NewClient srv "https://gitea.example.com" "secret" "" "")
     = "gitea-pages-allowall".
Proof. split; reflexivity. Qed.

Lemma NewClient_names_witness :
  giteapages
    (NewClient (pagesServer true) "https://gitea.example.com" "secret"
       "pages" "")
  = "pages"
  /\ giteapagesAllowAll
       (NewClient (pagesServer true) "https://gitea.example.com" "secret"
          "pages" "")
     = "gitea-pages-allowall"
  /\ giteapages
       (NewClient (pagesServer true) "https://gitea.example.com" "secret"
          "" "")
     = "gitea-pages".
Proof.
  split; [|split].
  - apply (proj1 (proj2 (proj2 (NewClient_names (pagesServer true)
                                  "https://gitea.example.com" "secret"
                                  "pages" "" "")))).
    discriminate.
  - apply (proj2 (proj2 (proj2 (proj2 (proj2 (proj2
             (NewClient_names (pagesServer true)
                "https://gitea.example.com" "secret" "pages" "" ""))))))).
  - apply (proj1 (proj2 (proj2 (proj2 (proj2 (proj2
             (NewClient_names (pagesServer true)
                "https://gitea.example.com" "secret" "" "" ""))))))).
Defined.

(** *** Fetching and rendering *)

Lemma getRawFileOrLFS_ok (c : Client) (owner repo filepath ref : string)
    (res : bytes) :
  getRawFileOrLFS c owner repo filepath ref = Ok res ->
  exists resp,
    Do (gc c) owner repo filepath ref = Ok resp
    /\ StatusCode resp = StatusOK
    /\ Body resp = Ok res.
Proof.
  unfold getRawFileOrLFS.
  destruct (Do (gc c) owner repo filepath ref) as [resp|e1]; [|discriminate].
  destruct (Z.eqb_spec (StatusCode resp) StatusNotFound) as [H404|H404];
    [discriminate|].
  destruct (Z.eqb_spec (StatusCode resp) StatusOK) as [H200|H200];
    [|discriminate].
  destruct (Body resp) as [body|e2] eqn:Hbody; [|discriminate].
  intros H. injection H as <-. eauto.
Qed.

(** [getRawFileOrLFS] gives bytes exactly when the server answers with
    status 200 and the body can be read, and then the bytes are the
    body: no other status, no redirect or partial answer, yields
    content. *)
Theorem getRawFileOrLFS_only_200 (c : Client)
    (owner repo filepath ref : string) (res : bytes) :
  getRawFileOrLFS c owner repo filepath ref = Ok res
  <-> exists resp,
        Do (gc c) owner repo filepath ref = Ok resp
        /\ StatusCode resp = StatusOK
        /\ Body resp = Ok res.
Proof.
  split; [apply getRawFileOrLFS_ok|].
  intros (resp & Hdo & Hstatus & Hbody).
  unfold getRawFileOrLFS. now rewrite Hdo, Hstatus, Hbody.
Qed.

(** An error of the transport or of reading the body is returned as it
    is. *)
Theorem getRawFileOrLFS_errors_pass (c : Client)
    (owner repo filepath ref : string) (e : error) :
  (Do (gc c) owner repo filepath ref = Err e ->
     getRawFileOrLFS c owner repo filepath ref = Err e)
  /\ (forall resp,
        Do (gc c) owner repo filepath ref = Ok resp ->
        StatusCode resp = StatusOK ->
        Body resp = Err e ->
        getRawFileOrLFS c owner repo filepath ref = Err e).
Proof.
  unfold getRawFileOrLFS. split.
  - now intros ->.
  - intros resp -> -> ->. reflexivity.
Qed.

Lemma getRawFileOrLFS_errors_pass_witness :
  getRawFileOrLFS
    (answering {| StatusCode := 200;
                  Body := Err (LibError "unexpected EOF") |})
    "o" "r" "index.html" "main"
  = Err (LibError "unexpected EOF").
Proof.
  apply (proj2 (getRawFileOrLFS_errors_pass
                  (answering {| StatusCode := 200;
                                Body := Err (LibError "unexpected EOF") |})
                  "o" "r" "index.html" "main" (LibError "unexpected EOF"))
           {| StatusCode := 200; Body := Err (LibError "unexpected EOF") |});
    reflexivity.
Defined.

Section Rendering.

Variable extractFrontMatter : string -> result (gmap string any * string).
Variable markdown : bytes -> result bytes.

(** [handleMD] fails exactly when splitting off the front matter fails
    or rendering the body fails, and with that error. *)
Theorem handleMD_errors (res : bytes) (e : error) :
  handleMD extractFrontMatter markdown res = Err e
  <-> extractFrontMatter res = Err e
      \/ exists meta resbody,
           extractFrontMatter res = Ok (meta, resbody)
           /\ markdown resbody = Err e.
Proof.
  unfold handleMD. split.
  - destruct (extractFrontMatter res) as [[meta resbody]|e1].
    + destruct (markdown resbody) as [resmd|e2] eqn:Hmd; [discriminate|].
      intros H. injection H as ->. right. eauto.
    + intros H. injection H as ->. now left.
  - intros [->|(meta & resbody & -> & ->)]; reflexivity.
Qed.

(** A title that is not a string counts as no title: the heading is
    empty. *)
Theorem handleMD_title_not_string (res : bytes) (meta : gmap string any)
    (resbody : string) (resmd : bytes) (x : any) :
  extractFrontMatter res = Ok (meta, resbody) ->
  markdown resbody = Ok resmd ->
  meta !! "title" = Some x ->
  (forall s, x <> AString s) ->
  handleMD extractFrontMatter markdown res
  = Ok ("<!DOCTYPE html>" +:+ LF +:+ "<html>" +:+ LF +:+ "<body>" +:+ LF
        +:+ "<h1></h1>" +:+ resmd +:+ "</body></html>").
Proof.
  intros Hfm Hmd Htitle Hx. unfold handleMD, title_of.
  rewrite Hfm, Hmd, Htitle.
  destruct x as [s| | |]; [now destruct (Hx s)|..];
    rewrite !append_assoc; reflexivity.
Qed.

(** [fetchFile] gives the bytes of the server for a name that does not
    end in [.md], and what [handleMD] makes of them for one that does;
    the file carries the name asked for. *)
Lemma fetchFile_ok (c : Client) (owner repo filepath ref : string)
    (f : openFile) :
  fetchFile extractFrontMatter markdown c owner repo filepath ref = Ok f ->
  name f = filepath
  /\ exists res,
       getRawFileOrLFS c owner repo filepath ref = Ok res
       /\ (strings.HasSuffix filepath ".md" = false -> content f = res)
       /\ (strings.HasSuffix filepath ".md" = true ->
             handleMD extractFrontMatter markdown res = Ok (content f)).
Proof.
  unfold fetchFile.
  destruct (getRawFileOrLFS c owner repo filepath ref) as [res|e];
    [|discriminate].
  destruct (strings.HasSuffix filepath ".md").
  - destruct (handleMD extractFrontMatter markdown res) as [out|e] eqn:Hmd;
      [|discriminate].
    intros H. injection H as <-. simpl. split; [reflexivity|].
    exists res. split; [reflexivity|]. split; [discriminate|].
    intros _. exact Hmd.
  - intros H. injection H as <-. simpl. split; [reflexivity|].
    exists res. split; [reflexivity|]. split; [reflexivity|discriminate].
Qed.

End Rendering.

Lemma handleMD_errors_witness :
  handleMD (fun _ => Err (LibError "front matter: unclosed block"))
    sampleMarkdown sampleDocument
  = Err (LibError "front matter: unclosed block").
Proof.
  apply (proj2 (handleMD_errors
                  (fun _ => Err (LibError "front matter: unclosed block"))
                  sampleMarkdown sampleDocument
                  (LibError "front matter: unclosed block"))).
  left. reflexivity.
Defined.

Lemma handleMD_title_not_string_witness :
  handleMD (fun s => Ok ({[ "title" := AInt 42 ]}, s)) sampleMarkdown "# Hello"
  = Ok ("<!DOCTYPE html>" +:+ LF +:+ "<html>" +:+ LF +:+ "<body>" +:+ LF
        +:+ "<h1></h1>" +:+ "<h1>Hello</h1>" +:+ LF +:+ "</body></html>").
Proof.
  refine (handleMD_title_not_string
            (fun s => Ok ({[ "title" := AInt 42 ]}, s)) sampleMarkdown
            "# Hello" {[ "title" := AInt 42 ]} "# Hello"
            ("<h1>Hello</h1>" +:+ LF) (AInt 42) _ _ _ _).
  - reflexivity.
  - reflexivity.
  - vm_compute. reflexivity.
  - discriminate.
Defined.

(** *** The orchestrator and the handler *)

(** The ref that leaves the access check is the ref given or the pages
    name. *)
Lemma checkAccess_ref (c : Client) (owner repo ref ref1 : string)
    (compatibilityMode : bool) (allowedBranches : AllowedBranches) :
  checkAccess c owner repo ref compatibilityMode allowedBranches = Ok ref1 ->
  ref1 = ref \/ ref1 = giteapages c.
Proof.
  unfold checkAccess.
  destruct (AllowedBranches_eqb allowedBranches AllowedBranchesNone);
    [|intros H; injection H as <-; now left].
  destruct (String.eqb repo (giteapages c)
            && negb (hasRepoBranch c owner repo (giteapages c)));
    [discriminate|].
  destruct compatibilityMode; [|intros H; injection H as <-; now left].
  destruct (AllowedBranches_eqb (allowsPages c owner (giteapages c))
              AllowedBranchesNone
            || negb (hasRepoBranch c owner repo (giteapages c)));
    [discriminate|].
  destruct (String.eqb_spec ref ""); intros H; injection H as <-; auto.
Qed.

(** The ref resolution leaves the configuration alone and gives the ref
    it is given or the pages name. *)
Lemma resolveRef_ok (c : Client) (repo ref1 ref2 : string)
    (allowedBranches : AllowedBranches) (hasConfig : bool) (v v' : Viper) :
  resolveRef c repo ref1 allowedBranches hasConfig v = (Ok ref2, v') ->
  v' = v /\ (ref2 = ref1 \/ ref2 = giteapages c).
Proof.
  unfold resolveRef.
  destruct (negb hasConfig
            && (String.eqb repo (giteapages c)
                || String.eqb ref1 (giteapages c))).
  - intros H. injection H as <- <-. auto.
  - destruct (validRefs v ref1 allowedBranches); simpl; [|discriminate].
    intros H. injection H as <- <-. auto.
Qed.

Section Serving.

Variable ReadConfig : Viper -> bytes -> Viper * option error.
Variable extractFrontMatter : string -> result (gmap string any * string).
Variable markdown : bytes -> result bytes.

Variable c : Client.
Variables owner repo filepath ref : string.

Local Abbreviation repo' := (defaultRepo c repo).
Local Abbreviation filepath' := (defaultFilepath filepath).
Local Abbreviation level := (allowsPages c owner (defaultRepo c repo)).
Local Abbreviation Open' :=
  (Open ReadConfig extractFrontMatter markdown c owner repo filepath ref).
Local Abbreviation fetchFile' :=
  (fetchFile extractFrontMatter markdown c owner (defaultRepo c repo)
             (defaultFilepath filepath)).

(** A file that [Open] returns was fetched from the repository asked
    for (the pages repository when none was), under the path asked for
    ([index.html] when none was), at the ref asked for or at the pages
    name. *)
Lemma Open_ok_fetch (compatibilityMode : bool) (f : openFile)
    (v v1 : Viper) :
  Open' compatibilityMode v = (Ok f, v1) ->
  exists ref2,
    (ref2 = ref \/ ref2 = giteapages c) /\ fetchFile' ref2 = Ok f.
Proof.
  destruct (checkAccess c owner repo' ref compatibilityMode level)
    as [ref1|e] eqn:Hacc.
  - rewrite (Open_after_access _ _ _ _ _ _ _ _ _ ref1 v Hacc).
    destruct (loadConfig ReadConfig c owner repo' level v)
      as [[hasConfig|e] v0]; [|discriminate].
    destruct (resolveRef c repo' ref1 level hasConfig v0)
      as [[ref2|e] v2] eqn:Href; [|discriminate].
    intros H. injection H as Hf <-.
    apply resolveRef_ok in Href as [_ Href].
    apply checkAccess_ref in Hacc.
    exists ref2. split; [|exact Hf].
    destruct Href as [-> | ->]; [exact Hacc|now right].
  - unfold Open, mbind, M_bind, liftR. cbv zeta. rewrite Hacc. discriminate.
Qed.

(** What [Open] returns is what the server sent with status 200 for
    the repository and path asked for, at the ref asked for or at the
    pages name: byte for byte when the name does not end in [.md], as
    [handleMD] renders it when it does.  The file carries the path
    asked for, [index.html] when it was empty or a slash. *)
Theorem Open_serves_requested_file (compatibilityMode : bool) (f : openFile)
    (v v1 : Viper) :
  Open' compatibilityMode v = (Ok f, v1) ->
  name f = filepath'
  /\ exists ref2 resp res,
       (ref2 = ref \/ ref2 = giteapages c)
       /\ Do (gc c) owner repo' filepath' ref2 = Ok resp
       /\ StatusCode resp = StatusOK
       /\ Body resp = Ok res
       /\ (strings.HasSuffix filepath' ".md" = false -> content f = res)
       /\ (strings.HasSuffix filepath' ".md" = true ->
             handleMD extractFrontMatter markdown res = Ok (content f)).
Proof.
  intros Hopen.
  apply Open_ok_fetch in Hopen as (ref2 & Href & Hfetch).
  apply fetchFile_ok in Hfetch as (Hname & res & Hraw & Hplain & Hmd).
  apply getRawFileOrLFS_ok in Hraw as (resp & Hdo & Hstatus & Hbody).
  split; [exact Hname|].
  exists ref2, resp, res. auto 10.
Qed.

(** When the configuration document cannot be fetched, viper keeps the
    configuration of an earlier request; the outcome of [Open] does not
    depend on it, and [Open] leaves it as it was. *)
Theorem Open_config_fetch_failure_ignores_viper (compatibilityMode : bool)
    (e : error) (v v' : Viper) :
  getRawFileOrLFS c owner repo' (giteapages c +:+ ".toml") (giteapages c)
  = Err e ->
  fst (Open' compatibilityMode v) = fst (Open' compatibilityMode v')
  /\ snd (Open' compatibilityMode v) = v.
Proof.
  intros Hfetch.
  unfold Open, mbind, M_bind, liftR. cbv zeta.
  destruct (checkAccess c owner repo' ref compatibilityMode level)
    as [ref1|e0]; [|split; reflexivity].
  unfold loadConfig, readConfig. rewrite Hfetch.
  unfold resolveRef, validRefs.
  destruct (String.eqb repo' (giteapages c)); simpl.
  - split; reflexivity.
  - destruct level; simpl; try (split; reflexivity).
    destruct (String.eqb ref1 (giteapages c)); split; reflexivity.
Qed.

(** A repository with the allow-all topic that is not the pages
    repository is served at the ref asked for, with or without a
    configuration document.  For the pages repository with that topic,
    a configuration that fails to load leaves only the pages branch. *)
Theorem Open_allow_all (compatibilityMode : bool) (v : Viper) :
  level = AllowedBranchesAll ->
  (repo' <> giteapages c ->
     fst (Open' compatibilityMode v) = fetchFile' ref)
  /\ (repo' = giteapages c ->
        forall e v1,
          readConfig ReadConfig c owner repo' v = (Err e, v1) ->
          fst (Open' compatibilityMode v) = fetchFile' (giteapages c)).
Proof.
  intros Hlevel.
  assert (Hacc : checkAccess c owner repo' ref compatibilityMode level
                 = Ok ref).
  { unfold checkAccess. now rewrite Hlevel. }
  rewrite (Open_after_access _ _ _ _ _ _ _ _ _ ref v Hacc).
  unfold loadConfig, resolveRef, validRefs. rewrite Hlevel. simpl.
  split.
  - intros Hrepo. apply String.eqb_neq in Hrepo. rewrite Hrepo. simpl.
    destruct (readConfig ReadConfig c owner repo' v) as [[[]|e] v1]; simpl.
    + reflexivity.
    + destruct (String.eqb_spec ref (giteapages c)) as [->|Href];
        reflexivity.
  - intros Hrepo e v1 Hread. rewrite Hread.
    apply String.eqb_eq in Hrepo. rewrite Hrepo. reflexivity.
Qed.

(** Outside compatibility mode a repository without any reserved topic
    that is not the pages repository passes the access check: [Open]
    fails with the error of loading its configuration document, and
    when the document loads [validRefs] alone decides whether the file
    is fetched. *)
Theorem Open_no_topic_subdomain (v : Viper) :
  level = AllowedBranchesNone ->
  repo' <> giteapages c ->
  Open' false v
  = match readConfig ReadConfig c owner repo' v with
    | (Err e, v1) => (Err e, v1)
    | (Ok _, v1) =>
        if validRefs v1 ref AllowedBranchesNone then (fetchFile' ref, v1)
        else (Err ErrNotExist, v1)
    end.
Proof.
  intros Hlevel Hrepo. apply String.eqb_neq in Hrepo.
  assert (Hacc : checkAccess c owner repo' ref false level = Ok ref).
  { unfold checkAccess. now rewrite Hlevel, Hrepo. }
  rewrite (Open_after_access _ _ _ _ _ _ _ _ _ ref v Hacc).
  unfold loadConfig, resolveRef. rewrite Hlevel, Hrepo. simpl.
  destruct (readConfig ReadConfig c owner repo' v) as [[[]|e] v1]; simpl;
    [|reflexivity].
  destruct (validRefs v1 ref AllowedBranchesNone); reflexivity.
Qed.

End Serving.

Lemma Open_serves_requested_file_witness :
  name {| content := "pages home"; name := "index.html" |}
  = defaultFilepath "/".
Proof.
  refine (proj1 (Open_serves_requested_file
                   sampleReadConfig sampleFrontMatter sampleMarkdown
                   (pagesClient false) "o" "" "/" "main" false
                   {| content := "pages home"; name := "index.html" |}
                   ∅ ∅ _)).
  vm_compute. reflexivity.
Defined.

Lemma Open_config_fetch_failure_ignores_viper_witness :
  fst (Open sampleReadConfig sampleFrontMatter sampleMarkdown
         (pagesClient false) "o" "" "/" "main" false
         {[ "allowedrefs" := ["*"] ]})
  = fst (Open sampleReadConfig sampleFrontMatter sampleMarkdown
           (pagesClient false) "o" "" "/" "main" false ∅)
  /\ snd (Open sampleReadConfig sampleFrontMatter sampleMarkdown
            (pagesClient false) "o" "" "/" "main" false
            {[ "allowedrefs" := ["*"] ]})
     = {[ "allowedrefs" := ["*"] ]}.
Proof.
  refine (Open_config_fetch_failure_ignores_viper
            sampleReadConfig sampleFrontMatter sampleMarkdown
            (pagesClient false) "o" "" "/" "main" false ErrNotExist
            {[ "allowedrefs" := ["*"] ]} ∅ _).
  reflexivity.
Defined.

Lemma Open_allow_all_witness :
  fst (Open sampleReadConfig sampleFrontMatter sampleMarkdown blogClient
         "o" "blog" "" "dev" false ∅)
  = Ok {| content := "blog on dev"; name := "index.html" |}.
Proof.
  refine (eq_trans
            (proj1 (Open_allow_all
                      sampleReadConfig sampleFrontMatter sampleMarkdown
                      blogClient "o" "blog" "" "dev" false ∅ _) _) _).
  - reflexivity.
  - discriminate.
  - reflexivity.
Defined.

Lemma Open_no_topic_subdomain_witness :
  Open sampleReadConfig sampleFrontMatter sampleMarkdown (pagesClient true)
    "o" "docs" "index.html" "gitea-pages" false ∅
  = (Ok {| content := "docs home"; name := "index.html" |},
     {[ "allowedrefs" := ["*"] ]}).
Proof.
  refine (eq_trans
            (Open_no_topic_subdomain
               sampleReadConfig sampleFrontMatter sampleMarkdown
               (pagesClient true) "o" "docs" "index.html" "gitea-pages"
               ∅ _ _) _).
  - reflexivity.
  - discriminate.
  - vm_compute. reflexivity.
Defined.

Lemma checkAccess_compat_none_witness :
  hasRepoBranch (pagesClient true) "o" "docs" "gitea-pages" = true
  /\ allowsPages (pagesClient true) "o" "gitea-pages" <> AllowedBranchesNone.
Proof.
  refine (checkAccess_compat_none (pagesClient true) "o" "docs" "" "gitea-pages"
            _).
  reflexivity.
Defined.

Section LegacyHandler.

Variable ReadConfig : Viper -> bytes -> Viper * option error.
Variable extractFrontMatter : string -> result (gmap string any * string).
Variable markdown : bytes -> result bytes.

(** In legacy mode a request whose path starts with a slash is served
    from the pages repository of the owner, under the path without its
    leading slash: the handler never reaches another repository. *)
Theorem ServeHTTP_legacy_pages_repo (m : Middleware) (c : Client)
    (r : Request) (o p : string) (hs : list string) (f : openFile)
    (v v1 : Viper) :
  Domain m = "" ->
  hostLabels m r = o :: hs ->
  Path r = "/" +:+ p ->
  ServeHTTP ReadConfig extractFrontMatter markdown m c r v
  = Some (Served f, v1) ->
  exists ref2,
    (ref2 = queryRef r \/ ref2 = giteapages c)
    /\ fetchFile extractFrontMatter markdown c o (giteapages c)
         (defaultFilepath p) ref2
       = Ok f.
Proof.
  intros Hd Hh Hp. unfold ServeHTTP.
  rewrite (legacy_mode_leading_slash m r o p hs Hd Hh Hp). simpl.
  destruct (Open ReadConfig extractFrontMatter markdown c o "" p (queryRef r)
              ((Domain m =? "")%string) v) as [[f'|e] v'] eqn:Hopen;
    [|discriminate].
  intros H. injection H as <- <-.
  apply Open_ok_fetch in Hopen. exact Hopen.
Qed.

End LegacyHandler.

Lemma ServeHTTP_legacy_pages_repo_witness :
  exists ref2,
    (ref2 = queryRef {| Host := "o.example.com"; Path := "/index.html";
                        Query := ∅ |}
     \/ ref2 = giteapages (pagesClient true))
    /\ fetchFile sampleFrontMatter sampleMarkdown (pagesClient true) "o"
         (giteapages (pagesClient true)) (defaultFilepath "index.html") ref2
       = Ok {| content := "pages home"; name := "index.html" |}.
Proof.
  refine (ServeHTTP_legacy_pages_repo
            sampleReadConfig sampleFrontMatter sampleMarkdown
            {| Domain := "" |} (pagesClient true)
            {| Host := "o.example.com"; Path := "/index.html"; Query := ∅ |}
            "o" "index.html" ["example"; "com"]
            {| content := "pages home"; name := "index.html" |} ∅ ∅ _ _ _ _).
  - reflexivity.
  - vm_compute. reflexivity.
  - reflexivity.
  - vm_compute. reflexivity.
Defined.

Section Store.

Variable ReadConfig : Viper -> bytes -> Viper * option error.
Variable extractFrontMatter : string -> result (gmap string any * string).
Variable markdown : bytes -> result bytes.

(** When the pages repository has no reserved topic and no pages
    branch, [Open] fails with [fs.ErrNotExist] in either mode, before
    any configuration is read. *)
Theorem Open_pages_repo_without_branch (c : Client)
    (owner repo filepath ref : string) (compatibilityMode : bool)
    (v : Viper) :
  defaultRepo c repo = giteapages c ->
  allowsPages c owner (giteapages c) = AllowedBranchesNone ->
  hasRepoBranch c owner (giteapages c) (giteapages c) = false ->
  Open ReadConfig extractFrontMatter markdown c owner repo filepath ref
    compatibilityMode v
  = (Err ErrNotExist, v).
Proof.
  intros Hrepo Hlevel Hbranch.
  unfold Open, mbind, M_bind, liftR, checkAccess. cbv zeta.
  rewrite Hrepo, Hlevel, Hbranch, String.eqb_refl. reflexivity.
Qed.

(** [Open] changes the viper configuration in one way only: by reading
    the configuration document of the repository, fetched as
    [<pages name>.toml] at the pages name. *)
Theorem Open_viper_change (c : Client) (owner repo filepath ref : string)
    (compatibilityMode : bool) (v : Viper) :
  snd (Open ReadConfig extractFrontMatter markdown c owner repo filepath ref
         compatibilityMode v) = v
  \/ exists cfg,
       getRawFileOrLFS c owner (defaultRepo c repo) (giteapages c +:+ ".toml")
         (giteapages c) = Ok cfg
       /\ snd (Open ReadConfig extractFrontMatter markdown c owner repo
                 filepath ref compatibilityMode v)
          = fst (ReadConfig v cfg).
Proof.
  unfold Open, mbind, M_bind, liftR. cbv zeta.
  destruct (checkAccess c owner (defaultRepo c repo) ref compatibilityMode
              (allowsPages c owner (defaultRepo c repo))) as [ref1|e0];
    [|now left].
  unfold loadConfig, readConfig.
  destruct (getRawFileOrLFS c owner (defaultRepo c repo)
              (giteapages c +:+ ".toml") (giteapages c)) as [cfg|e1].
  - right. exists cfg. split; [reflexivity|].
    destruct (ReadConfig v cfg) as [v1 [e2|]]; simpl.
    + destruct (negb (String.eqb (defaultRepo c repo) (giteapages c))
                && AllowedBranches_ltb (allowsPages c owner (defaultRepo c repo))
                     AllowedBranchesAll); [reflexivity|].
      destruct (resolveRef c (defaultRepo c repo) ref1
                  (allowsPages c owner (defaultRepo c repo)) false v1)
        as [[ref2|e3] v2] eqn:Href.
      * now apply resolveRef_ok in Href as [-> _].
      * unfold resolveRef in Href.
        destruct (negb false
                  && (String.eqb (defaultRepo c repo) (giteapages c)
                      || String.eqb ref1 (giteapages c))); [discriminate|].
        destruct (validRefs v1 ref1 (allowsPages c owner (defaultRepo c repo)));
          simpl in Href; [discriminate|]. now injection Href as _ <-.
    + destruct (resolveRef c (defaultRepo c repo) ref1
                  (allowsPages c owner (defaultRepo c repo)) true v1)
        as [[ref2|e3] v2] eqn:Href.
      * now apply resolveRef_ok in Href as [-> _].
      * unfold resolveRef in Href. simpl in Href.
        destruct (validRefs v1 ref1 (allowsPages c owner (defaultRepo c repo)));
          simpl in Href; [discriminate|]. now injection Href as _ <-.
  - left.
    destruct (negb (String.eqb (defaultRepo c repo) (giteapages c))
              && AllowedBranches_ltb (allowsPages c owner (defaultRepo c repo))
                   AllowedBranchesAll); [reflexivity|].
    destruct (resolveRef c (defaultRepo c repo) ref1
                (allowsPages c owner (defaultRepo c repo)) false v)
      as [[ref2|e3] v2] eqn:Href.
    + now apply resolveRef_ok in Href as [-> _].
    + unfold resolveRef in Href.
      destruct (negb false
                && (String.eqb (defaultRepo c repo) (giteapages c)
                    || String.eqb ref1 (giteapages c))); [discriminate|].
      destruct (validRefs v ref1 (allowsPages c owner (defaultRepo c repo)));
        simpl in Href; [discriminate|]. now injection Href as _ <-.
Qed.

End Store.

Lemma Open_pages_repo_without_branch_witness :
  Open sampleReadConfig sampleFrontMatter sampleMarkdown blogClient
    "o" "" "/" "" true {[ "allowedrefs" := ["*"] ]}
  = (Err ErrNotExist, {[ "allowedrefs" := ["*"] ]}).
Proof.
  refine (Open_pages_repo_without_branch
            sampleReadConfig sampleFrontMatter sampleMarkdown blogClient
            "o" "" "/" "" true {[ "allowedrefs" := ["*"] ]} _ _ _);
    reflexivity.
Defined.
